(** * Ingredient vocabulary: normalized shadow fields and index plans

    A shallow embedding of [mealie/db/models/recipe/ingredient.py]: the three
    mapped classes [IngredientUnitModel], [IngredientFoodModel] and
    [RecipeIngredientModel], their constructors, the attribute "set" listeners
    that maintain the [*_normalized] columns, and the [__table_args__] each
    constructor builds for the engine the session is bound to.

    Text columns are [option string] ([str | None]); an instance is a record of
    its attributes and every attribute write returns the updated record. *)

From Stdlib Require Import String Ascii List Bool Arith Lia.
Import ListNotations.

Local Open Scope string_scope.
Local Open Scope list_scope.

(** ** Text normalizer *)

Module TextNormalizer.

(** Whitespace as [str.strip] sees it in ASCII: space, and tab to carriage
    return. *)
Definition is_space (c : ascii) : bool :=
  let n := nat_of_ascii c in
  Nat.eqb n 32 || (Nat.leb 9 n && Nat.leb n 13).

(** ASCII case folding of one character; every other byte is kept. *)
Definition lower (c : ascii) : ascii :=
  let n := nat_of_ascii c in
  if Nat.leb 65 n && Nat.leb n 90 then ascii_of_nat (n + 32) else c.

Fixpoint fold_case (s : string) : string :=
  match s with
  | EmptyString => EmptyString
  | String c r => String (lower c) (fold_case r)
  end.

Fixpoint lstrip (s : string) : string :=
  match s with
  | EmptyString => EmptyString
  | String c r => if is_space c then lstrip r else s
  end.

(** Every run of whitespace becomes one space and a run that ends the text
    disappears.  The tail is collapsed first, so its head tells whether the
    current whitespace character continues a run. *)
Fixpoint collapse (s : string) : string :=
  match s with
  | EmptyString => EmptyString
  | String c r =>
      let r' := collapse r in
      if is_space c then
        match r' with
        | EmptyString => EmptyString
        | String d _ => if is_space d then r' else String " " r'
        end
      else String c r'
  end.

(** Modelled from the spec: the text normalizer [SqlAlchemyBase.normalize],
    which the model classes inherit and whose body is not part of
    ingredient.py.  Section 4.1 fixes its contract (pure, deterministic,
    idempotent) and names case folding and whitespace collapsing as the
    transformation; this is that transformation on byte strings: fold ASCII
    case, drop leading whitespace, collapse inner runs and drop the
    trailing one.  Bytes outside ASCII are kept as they are. *)
Definition normalize (s : string) : string :=
  collapse (lstrip (fold_case s)).

End TextNormalizer.

(** [Normalize] of the specification, on nullable text, for a given
    normalizer on text: what every listener stores for a value. *)
Definition Normalize (normalize : string -> string) (raw : option string)
  : option string :=
  match raw with
  | Some value => Some (normalize value)
  | None => None
  end.

(** ** Sessions and schema items *)

(** [session.get_bind().name]: the engine a session is bound to and the name
    of its dialect. *)
Record Engine := { engine_name : string }.
Record Session := { get_bind : Engine }.

(** The items a [__table_args__] tuple holds here: [sa.UniqueConstraint] with
    its columns and name, and [sa.Index] with its name, its column
    expressions and the keyword arguments the source passes. *)
Inductive TableArg :=
| UniqueConstraint (columns : list string) (name : string)
| Index (name : string) (expressions : list string) (unique : bool)
        (postgresql_using : option string)
        (postgresql_ops : list (string * string)).

(** A [mapped_column(...)] of a class body: the attribute it is assigned to
    and the keyword arguments that bear on uniqueness and indexing, an
    absent one at its default ([nullable] defaults to true except on a
    primary key). *)
Module MappedColumn.

Record t := mk {
  name : string;
  primary_key : bool;
  nullable : bool;
  index : bool;
  unique : bool
}.

End MappedColumn.

(** The test every constructor makes on the bound engine. *)
Definition is_postgresql (session : Session) : bool :=
  String.eqb (engine_name (get_bind session)) "postgresql".

(** The two index families of the specification, as that test decides them. *)
Inductive CapabilityFamily := Generic | TrigramCapable.

Definition capability (session : Session) : CapabilityFamily :=
  if is_postgresql session then TrigramCapable else Generic.

(** ** Keyword arguments *)

(** The keyword arguments of a constructor call, in insertion order.  Only
    text-valued (or null) entries are modelled. *)
Definition Kwargs := list (string * option string).

(** The value Python binds to a named parameter with default [None]: the
    entry of that name, or [None] when there is none.  A later entry of the
    same name replaces an earlier one, as in a dict. *)
Definition kwarg (key : string) (kwargs : Kwargs) : option string :=
  fold_left
    (fun acc kv => if String.eqb (fst kv) key then snd kv else acc)
    kwargs None.

(** ** Reading a plan *)

Definition lookup_ops (column : string) (ops : list (string * string))
  : option string :=
  match find (fun kv => String.eqb (fst kv) column) ops with
  | Some kv => Some (snd kv)
  | None => None
  end.

(** A plain index on [column]: that column alone, not unique, no access
    method given. *)
Definition is_plain_index_on (column : string) (ta : TableArg) : bool :=
  match ta with
  | Index _ [c] false None _ => String.eqb c column
  | _ => false
  end.

(** A trigram index on [column]: a GIN index whose indexed expressions
    include the column and whose operator class for it is [gin_trgm_ops]. *)
Definition is_trigram_index_on (column : string) (ta : TableArg) : bool :=
  match ta with
  | Index _ cols _ (Some method) ops =>
      String.eqb method "gin"
      && existsb (String.eqb column) cols
      && match lookup_ops column ops with
         | Some cls => String.eqb cls "gin_trgm_ops"
         | None => false
         end
  | _ => false
  end.

Definition plain_indexes_on (column : string) (plan : list TableArg) :=
  filter (is_plain_index_on column) plan.

Definition trigram_indexes_on (column : string) (plan : list TableArg) :=
  filter (is_trigram_index_on column) plan.

(** Any index that asks for an access method of its own. *)
Definition is_accelerated (ta : TableArg) : bool :=
  match ta with
  | Index _ _ _ (Some _) _ => true
  | _ => false
  end.

(** The naming scheme of the persisted schema:
    [ix_<table>_<field>_normalized[_gin]] for an index, [<field>] one of the
    raw text fields of the table and [_gin] exactly on the indexes with an
    access method; [<table>_<field>_<scope>_key] for a uniqueness constraint
    over the columns [<field>] and [<scope>]. *)
Definition name_matches (table : string) (raw_fields : list string)
  (ta : TableArg) : Prop :=
  match ta with
  | Index n _ _ method _ =>
      exists field,
        In field raw_fields /\
        n = ("ix_" ++ table ++ "_" ++ field ++ "_normalized"
               ++ match method with Some _ => "_gin" | None => "" end)%string
  | UniqueConstraint cols n =>
      exists field scope,
        cols = [field; scope] /\
        n = (table ++ "_" ++ field ++ "_" ++ scope ++ "_key")%string
  end.

(** ** class IngredientUnitModel *)

Module IngredientUnitModel.

Definition __tablename__ : string := "ingredient_units".

(** The columns the class body declares, in order. *)
Definition columns : list MappedColumn.t :=
  [ MappedColumn.mk "id" true false false false;
    MappedColumn.mk "group_id" false false true false;
    MappedColumn.mk "name" false true false false;
    MappedColumn.mk "description" false true false false;
    MappedColumn.mk "abbreviation" false true false false;
    MappedColumn.mk "use_abbreviation" false true false false;
    MappedColumn.mk "fraction" false true false false;
    MappedColumn.mk "name_normalized" false true true false;
    MappedColumn.mk "abbreviation_normalized" false true true false ].

(** The class attribute [__table_args__]: the class body assigns none. *)
Definition class_table_args : list TableArg := [].

(** The text attributes of an instance and the [__table_args__] its
    constructor stores.  [group_id] holds the GUID in its text form. *)
Record t := mk {
  group_id : option string;
  name : option string;
  description : option string;
  abbreviation : option string;
  name_normalized : option string;
  abbreviation_normalized : option string;
  __table_args__ : list TableArg
}.

(** A new instance before any attribute is assigned: every column reads
    [None]. *)
Definition blank : t := mk None None None None None None [].

(** Plain attribute writes (no listener involved). *)
Definition write_group_id (v : option string) (self : t) : t :=
  mk v (name self) (description self) (abbreviation self)
     (name_normalized self) (abbreviation_normalized self)
     (__table_args__ self).
Definition write_name (v : option string) (self : t) : t :=
  mk (group_id self) v (description self) (abbreviation self)
     (name_normalized self) (abbreviation_normalized self)
     (__table_args__ self).
Definition write_description (v : option string) (self : t) : t :=
  mk (group_id self) (name self) v (abbreviation self)
     (name_normalized self) (abbreviation_normalized self)
     (__table_args__ self).
Definition write_abbreviation (v : option string) (self : t) : t :=
  mk (group_id self) (name self) (description self) v
     (name_normalized self) (abbreviation_normalized self)
     (__table_args__ self).
Definition write_name_normalized (v : option string) (self : t) : t :=
  mk (group_id self) (name self) (description self) (abbreviation self)
     v (abbreviation_normalized self) (__table_args__ self).
Definition write_abbreviation_normalized (v : option string) (self : t) : t :=
  mk (group_id self) (name self) (description self) (abbreviation self)
     (name_normalized self) v (__table_args__ self).
Definition write_table_args (v : list TableArg) (self : t) : t :=
  mk (group_id self) (name self) (description self) (abbreviation self)
     (name_normalized self) (abbreviation_normalized self) v.

(** The raw fields that carry a "set" listener. *)
Definition raw_fields : list string := ["name"; "abbreviation"].

(** The value of a column of a row, by column name. *)
Definition column (c : string) (row : t) : option string :=
  if String.eqb c "group_id" then group_id row
  else if String.eqb c "name" then name row
  else if String.eqb c "description" then description row
  else if String.eqb c "abbreviation" then abbreviation row
  else if String.eqb c "name_normalized" then name_normalized row
  else if String.eqb c "abbreviation_normalized"
       then abbreviation_normalized row
  else None.

(** The list the constructor builds and stores as [__table_args__]. *)
Definition tableargs (session : Session) : list TableArg :=
  [ UniqueConstraint ["name"; "group_id"] "ingredient_units_name_group_id_key";
    Index "ix_ingredient_units_name_normalized"
          ["name_normalized"] false None [];
    Index "ix_ingredient_units_abbreviation_normalized"
          ["abbreviation_normalized"] false None [] ]
  ++ (if is_postgresql session then
        [ Index "ix_ingredient_units_name_normalized_gin"
                ["name_normalized"] false (Some "gin")
                [("name_normalized", "gin_trgm_ops")];
          Index "ix_ingredient_units_abbreviation_normalized_gin"
                ["abbreviation_normalized"] false (Some "gin")
                [("abbreviation_normalized", "gin_trgm_ops")] ]
      else []).

(** Assignments that run one after the other on an instance. *)
Inductive assignment :=
| AssignName (value : option string)
| AssignAbbreviation (value : option string).

Section WithNormalizer.

Variable normalize : string -> string.

(** Listener of [IngredientUnitModel.name], event "set". *)
Definition receive_unit_name (target : t) (value : option string) : t :=
  match value with
  | Some v => write_name_normalized (Some (normalize v)) target
  | None => write_name_normalized None target
  end.

(** Listener of [IngredientUnitModel.abbreviation], event "set". *)
Definition receive_unit_abbreviation (target : t) (value : option string)
  : t :=
  match value with
  | Some v => write_abbreviation_normalized (Some (normalize v)) target
  | None => write_abbreviation_normalized None target
  end.

(** [self.name = value] on the instrumented attribute: the listener runs
    with the new value, then the value is stored. *)
Definition set_name (value : option string) (self : t) : t :=
  write_name value (receive_unit_name self value).

Definition set_abbreviation (value : option string) (self : t) : t :=
  write_abbreviation value (receive_unit_abbreviation self value).

Definition assign (self : t) (a : assignment) : t :=
  match a with
  | AssignName v => set_name v self
  | AssignAbbreviation v => set_abbreviation v self
  end.

Definition run (l : list assignment) (self : t) : t :=
  fold_left assign l self.

(** Both shadow fields hold the normal form of their raw field. *)
Definition synchronized (self : t) : Prop :=
  name_normalized self = Normalize normalize (name self) /\
  abbreviation_normalized self = Normalize normalize (abbreviation self).

(** The body of [__init__]. *)
Definition __init__ (self : t) (session : Session)
  (name abbreviation : option string) : t :=
  let self :=
    match name with
    | Some n => write_name_normalized (Some (normalize n)) self
    | None => self
    end in
  let self :=
    match abbreviation with
    | Some a => set_abbreviation (Some (normalize a)) self
    | None => self
    end in
  write_table_args (tableargs session) self.

(** Modelled from the spec: the population step of the decorator
    [auto_init], whose code is not part of ingredient.py.  It assigns
    every entry of the field map whose key is an attribute of the class
    and ignores the other keys.  Whether the "set" listeners observe
    these assignments is not guaranteed (section 4.5), so it is the
    parameter [events]. *)
Definition setattr (events : bool) (self : t) (kv : string * option string)
  : t :=
  let (key, value) := kv in
  if String.eqb key "group_id" then write_group_id value self
  else if String.eqb key "name" then
    if events then set_name value self else write_name value self
  else if String.eqb key "description" then write_description value self
  else if String.eqb key "abbreviation" then
    if events then set_abbreviation value self
    else write_abbreviation value self
  else if String.eqb key "name_normalized"
       then write_name_normalized value self
  else if String.eqb key "abbreviation_normalized"
       then write_abbreviation_normalized value self
  else self.

(** Modelled from the spec: [auto_init] takes the entries of the field map
    in order. *)
Definition auto_init (events : bool) (kwargs : Kwargs) (self : t) : t :=
  fold_left (setattr events) kwargs self.

(** Modelled from the spec: the call
    [IngredientUnitModel(session=session, **kwargs)] through the decorator
    [auto_init] (sections 4.5 and 9): the field map populates the new
    instance first, then the body runs with the same keyword arguments,
    which Python binds to its parameters by name. *)
Definition new (events : bool) (session : Session) (kwargs : Kwargs) : t :=
  __init__ (auto_init events kwargs blank) session
           (kwarg "name" kwargs) (kwarg "abbreviation" kwargs).

End WithNormalizer.

End IngredientUnitModel.

(** ** class IngredientFoodModel *)

Module IngredientFoodModel.

Definition __tablename__ : string := "ingredient_foods".

(** The columns the class body declares, in order. *)
Definition columns : list MappedColumn.t :=
  [ MappedColumn.mk "id" true false false false;
    MappedColumn.mk "group_id" false false true false;
    MappedColumn.mk "name" false true false false;
    MappedColumn.mk "description" false true false false;
    MappedColumn.mk "label_id" false true true false;
    MappedColumn.mk "name_normalized" false true true false ].

(** The class attribute [__table_args__]: the class body assigns none. *)
Definition class_table_args : list TableArg := [].

Record t := mk {
  group_id : option string;
  name : option string;
  description : option string;
  label_id : option string;
  name_normalized : option string;
  __table_args__ : list TableArg
}.

Definition blank : t := mk None None None None None [].

Definition write_group_id (v : option string) (self : t) : t :=
  mk v (name self) (description self) (label_id self)
     (name_normalized self) (__table_args__ self).
Definition write_name (v : option string) (self : t) : t :=
  mk (group_id self) v (description self) (label_id self)
     (name_normalized self) (__table_args__ self).
Definition write_description (v : option string) (self : t) : t :=
  mk (group_id self) (name self) v (label_id self)
     (name_normalized self) (__table_args__ self).
Definition write_label_id (v : option string) (self : t) : t :=
  mk (group_id self) (name self) (description self) v
     (name_normalized self) (__table_args__ self).
Definition write_name_normalized (v : option string) (self : t) : t :=
  mk (group_id self) (name self) (description self) (label_id self)
     v (__table_args__ self).
Definition write_table_args (v : list TableArg) (self : t) : t :=
  mk (group_id self) (name self) (description self) (label_id self)
     (name_normalized self) v.

Definition raw_fields : list string := ["name"].

Definition column (c : string) (row : t) : option string :=
  if String.eqb c "group_id" then group_id row
  else if String.eqb c "name" then name row
  else if String.eqb c "description" then description row
  else if String.eqb c "label_id" then label_id row
  else if String.eqb c "name_normalized" then name_normalized row
  else None.

Definition tableargs (session : Session) : list TableArg :=
  [ UniqueConstraint ["name"; "group_id"] "ingredient_foods_name_group_id_key";
    Index "ix_ingredient_foods_name_normalized"
          ["name_normalized"] false None [] ]
  ++ (if is_postgresql session then
        [ Index "ix_ingredient_foods_name_normalized_gin"
                ["name_normalized"] false (Some "gin")
                [("name_normalized", "gin_trgm_ops")] ]
      else []).

Inductive assignment :=
| AssignName (value : option string).

Section WithNormalizer.

Variable normalize : string -> string.

(** Listener of [IngredientFoodModel.name], event "set". *)
Definition receive_food_name (target : t) (value : option string) : t :=
  match value with
  | Some v => write_name_normalized (Some (normalize v)) target
  | None => write_name_normalized None target
  end.

Definition set_name (value : option string) (self : t) : t :=
  write_name value (receive_food_name self value).

Definition assign (self : t) (a : assignment) : t :=
  match a with
  | AssignName v => set_name v self
  end.

Definition run (l : list assignment) (self : t) : t :=
  fold_left assign l self.

Definition synchronized (self : t) : Prop :=
  name_normalized self = Normalize normalize (name self).

Definition __init__ (self : t) (session : Session) (name : option string)
  : t :=
  let self :=
    match name with
    | Some n => write_name_normalized (Some (normalize n)) self
    | None => self
    end in
  write_table_args (tableargs session) self.

(** Modelled from the spec: the population step of [auto_init] for this
    class (see [IngredientUnitModel.setattr]). *)
Definition setattr (events : bool) (self : t) (kv : string * option string)
  : t :=
  let (key, value) := kv in
  if String.eqb key "group_id" then write_group_id value self
  else if String.eqb key "name" then
    if events then set_name value self else write_name value self
  else if String.eqb key "description" then write_description value self
  else if String.eqb key "label_id" then write_label_id value self
  else if String.eqb key "name_normalized"
       then write_name_normalized value self
  else self.

(** Modelled from the spec: [auto_init] takes the entries of the field map
    in order. *)
Definition auto_init (events : bool) (kwargs : Kwargs) (self : t) : t :=
  fold_left (setattr events) kwargs self.

(** Modelled from the spec: the call of the decorated constructor (see
    [IngredientUnitModel.new]). *)
Definition new (events : bool) (session : Session) (kwargs : Kwargs) : t :=
  __init__ (auto_init events kwargs blank) session (kwarg "name" kwargs).

End WithNormalizer.

End IngredientFoodModel.


(** ** class RecipeIngredientModel *)

Module RecipeIngredientModel.

Definition __tablename__ : string := "recipes_ingredients".

(** The text columns of a line, then [orginal_text]: no column has that
    name, so an assignment to it creates an ordinary attribute of the
    instance ([None] while it does not exist). *)
Record t := mk {
  title : option string;
  note : option string;
  original_text : option string;
  note_normalized : option string;
  original_text_normalized : option string;
  orginal_text : option string;
  __table_args__ : list TableArg
}.

Definition blank : t := mk None None None None None None [].

Definition write_title (v : option string) (self : t) : t :=
  mk v (note self) (original_text self) (note_normalized self)
     (original_text_normalized self) (orginal_text self)
     (__table_args__ self).
Definition write_note (v : option string) (self : t) : t :=
  mk (title self) v (original_text self) (note_normalized self)
     (original_text_normalized self) (orginal_text self)
     (__table_args__ self).
Definition write_original_text (v : option string) (self : t) : t :=
  mk (title self) (note self) v (note_normalized self)
     (original_text_normalized self) (orginal_text self)
     (__table_args__ self).
Definition write_note_normalized (v : option string) (self : t) : t :=
  mk (title self) (note self) (original_text self) v
     (original_text_normalized self) (orginal_text self)
     (__table_args__ self).
Definition write_original_text_normalized (v : option string) (self : t) : t :=
  mk (title self) (note self) (original_text self) (note_normalized self)
     v (orginal_text self) (__table_args__ self).
Definition write_orginal_text (v : option string) (self : t) : t :=
  mk (title self) (note self) (original_text self) (note_normalized self)
     (original_text_normalized self) v (__table_args__ self).
Definition write_table_args (v : list TableArg) (self : t) : t :=
  mk (title self) (note self) (original_text self) (note_normalized self)
     (original_text_normalized self) (orginal_text self) v.

Definition raw_fields : list string := ["note"; "original_text"].

Definition tableargs (session : Session) : list TableArg :=
  [ Index "ix_recipes_ingredients_note_normalized"
          ["note_normalized"] false None [];
    Index "ix_recipes_ingredients_original_text_normalized"
          ["original_text_normalized"] false None [] ]
  ++ (if is_postgresql session then
        [ Index "ix_recipes_ingredients_note_normalized_gin"
                ["note_normalized"] false (Some "gin")
                [("note_normalized", "gin_trgm_ops")];
          Index "ix_recipes_ingredients_original_text_normalized_gin"
                ["original_text"] false (Some "gin")
                [("original_text_normalized", "gin_trgm_ops")] ]
      else []).

Inductive assignment :=
| AssignNote (value : option string)
| AssignOriginalText (value : option string).

Section WithNormalizer.

Variable normalize : string -> string.

(** Listener of [RecipeIngredientModel.note], event "set". *)
Definition receive_ingredient_note (target : t) (value : option string) : t :=
  match value with
  | Some v => write_note_normalized (Some (normalize v)) target
  | None => write_note_normalized None target
  end.

(** Listener of [RecipeIngredientModel.original_text], event "set". *)
Definition receive_ingredient_original_text (target : t)
  (value : option string) : t :=
  match value with
  | Some v => write_original_text_normalized (Some (normalize v)) target
  | None => write_original_text_normalized None target
  end.

Definition set_note (value : option string) (self : t) : t :=
  write_note value (receive_ingredient_note self value).

Definition set_original_text (value : option string) (self : t) : t :=
  write_original_text value (receive_ingredient_original_text self value).

Definition assign (self : t) (a : assignment) : t :=
  match a with
  | AssignNote v => set_note v self
  | AssignOriginalText v => set_original_text v self
  end.

Definition run (l : list assignment) (self : t) : t :=
  fold_left assign l self.

Definition synchronized (self : t) : Prop :=
  note_normalized self = Normalize normalize (note self) /\
  original_text_normalized self = Normalize normalize (original_text self).

(** The body of [__init__]; its second text parameter is spelled
    [orginal_text], and so is the attribute it assigns. *)
Definition __init__ (self : t) (session : Session)
  (note orginal_text : option string) : t :=
  let self :=
    match note with
    | Some n => write_note_normalized (Some (normalize n)) self
    | None => self
    end in
  let self :=
    match orginal_text with
    | Some o => write_orginal_text (Some (normalize o)) self
    | None => self
    end in
  write_table_args (tableargs session) self.

(** Modelled from the spec: the population step of [auto_init] for this
    class (see [IngredientUnitModel.setattr]).  [orginal_text] is not an
    attribute of the class, so that key is ignored like any unknown key. *)
Definition setattr (events : bool) (self : t) (kv : string * option string)
  : t :=
  let (key, value) := kv in
  if String.eqb key "title" then write_title value self
  else if String.eqb key "note" then
    if events then set_note value self else write_note value self
  else if String.eqb key "original_text" then
    if events then set_original_text value self
    else write_original_text value self
  else if String.eqb key "note_normalized"
       then write_note_normalized value self
  else if String.eqb key "original_text_normalized"
       then write_original_text_normalized value self
  else self.

(** Modelled from the spec: [auto_init] takes the entries of the field map
    in order. *)
Definition auto_init (events : bool) (kwargs : Kwargs) (self : t) : t :=
  fold_left (setattr events) kwargs self.

(** Modelled from the spec: the call of the decorated constructor (see
    [IngredientUnitModel.new]).  The body's parameters are bound by name, so
    the entry [original_text] of the field map goes to [**_] and
    [orginal_text] keeps its default unless a caller uses that spelling. *)
Definition new (events : bool) (session : Session) (kwargs : Kwargs) : t :=
  __init__ (auto_init events kwargs blank) session
           (kwarg "note" kwargs) (kwarg "orginal_text" kwargs).

End WithNormalizer.

End RecipeIngredientModel.

(** ** Uniqueness constraints at commit *)

Section Commit.

Context {row : Type}.
Variable column : string -> row -> option string.




End Commit.

(** ** Reading a field map and a plan by name *)

(** Whether the field map has an entry named [key]. *)
Definition has_key (key : string) (kwargs : Kwargs) : bool :=
  existsb (fun kv => String.eqb (fst kv) key) kwargs.

(** The name a schema item is created under. *)
Definition item_name (ta : TableArg) : string :=
  match ta with
  | UniqueConstraint _ n => n
  | Index n _ _ _ _ => n
  end.

(** Whether the item makes the engine keep its columns unique: a uniqueness
    constraint, or an index declared with [unique=True]. *)
Definition enforces_uniqueness (ta : TableArg) : bool :=
  match ta with
  | UniqueConstraint _ _ => true
  | Index _ _ u _ _ => u
  end.

(** ** The tables as the classes declare them *)



(** * Properties *)

(** Finds the raw field an index is named after. *)
Ltac index_of_field :=
  let try_field f := solve [exists f; split; [cbn; tauto | reflexivity]] in
  first [ try_field "name" | try_field "abbreviation"
        | try_field "note" | try_field "original_text" ].

(** ** The normalizer *)

Section NormalizerFacts.

Import TextNormalizer.

Lemma lower_idempotent (c : ascii) : lower (lower c) = lower c.
Proof. destruct c as [[] [] [] [] [] [] [] []]; vm_compute; reflexivity. Qed.

Lemma is_space_lower (c : ascii) : is_space (lower c) = is_space c.
Proof. destruct c as [[] [] [] [] [] [] [] []]; vm_compute; reflexivity. Qed.

Lemma fold_case_idempotent (s : string) : fold_case (fold_case s) = fold_case s.
Proof.
  induction s as [|c r IH]; simpl; [reflexivity|].
  now rewrite lower_idempotent, IH.
Qed.

Lemma fold_case_lstrip (s : string) :
  fold_case (lstrip s) = lstrip (fold_case s).
Proof.
  induction s as [|c r IH]; simpl; [reflexivity|].
  rewrite is_space_lower. destruct (is_space c); [exact IH | reflexivity].
Qed.

Lemma fold_case_collapse (s : string) :
  fold_case (collapse s) = collapse (fold_case s).
Proof.
  induction s as [|c r IH]; simpl; [reflexivity|].
  rewrite is_space_lower, <- IH.
  destruct (is_space c) eqn:Hc.
  - destruct (collapse r) as [|d x]; simpl; [reflexivity|].
    rewrite is_space_lower. destruct (is_space d); reflexivity.
  - reflexivity.
Qed.

Lemma collapse_idempotent (s : string) : collapse (collapse s) = collapse s.
Proof.
  induction s as [|c r IH]; simpl; [reflexivity|].
  destruct (is_space c) eqn:Hc.
  - destruct (collapse r) as [|d x] eqn:Hr; [reflexivity|].
    destruct (is_space d) eqn:Hd; [exact IH|].
    change (collapse (String " " (String d x))) with
      (match collapse (String d x) with
       | EmptyString => EmptyString
       | String e _ =>
           if is_space e then collapse (String d x)
           else String " " (collapse (String d x))
       end).
    rewrite IH, Hd. reflexivity.
  - simpl. rewrite Hc, IH. reflexivity.
Qed.

Lemma lstrip_head (s : string) :
  lstrip s = EmptyString \/
  exists c r, lstrip s = String c r /\ is_space c = false.
Proof.
  induction s as [|c r IH]; simpl; [now left|].
  destruct (is_space c) eqn:Hc; [exact IH|].
  right. now exists c, r.
Qed.

Lemma lstrip_collapse_lstrip (s : string) :
  lstrip (collapse (lstrip s)) = collapse (lstrip s).
Proof.
  destruct (lstrip_head s) as [-> | (c & r & -> & Hc)]; [reflexivity|].
  simpl. rewrite Hc. simpl. rewrite Hc. reflexivity.
Qed.

Lemma normalize_idempotent (s : string) :
  normalize (normalize s) = normalize s.
Proof.
  unfold normalize.
  rewrite fold_case_collapse, fold_case_lstrip, fold_case_idempotent.
  rewrite lstrip_collapse_lstrip. apply collapse_idempotent.
Qed.

End NormalizerFacts.

(** ** Shadow fields under assignment *)

Section ShadowFields.

Variable normalize : string -> string.

Lemma unit_run_snoc (pre : list IngredientUnitModel.assignment)
  (a : IngredientUnitModel.assignment) (u : IngredientUnitModel.t) :
  IngredientUnitModel.run normalize (pre ++ [a]) u =
  IngredientUnitModel.assign normalize (IngredientUnitModel.run normalize pre u) a.
Proof. unfold IngredientUnitModel.run. now rewrite fold_left_app. Qed.

Lemma food_run_snoc (pre : list IngredientFoodModel.assignment)
  (a : IngredientFoodModel.assignment) (f : IngredientFoodModel.t) :
  IngredientFoodModel.run normalize (pre ++ [a]) f =
  IngredientFoodModel.assign normalize (IngredientFoodModel.run normalize pre f) a.
Proof. unfold IngredientFoodModel.run. now rewrite fold_left_app. Qed.

Lemma recipe_run_snoc (pre : list RecipeIngredientModel.assignment)
  (a : RecipeIngredientModel.assignment) (r : RecipeIngredientModel.t) :
  RecipeIngredientModel.run normalize (pre ++ [a]) r =
  RecipeIngredientModel.assign normalize
    (RecipeIngredientModel.run normalize pre r) a.
Proof. unfold RecipeIngredientModel.run. now rewrite fold_left_app. Qed.

(** One assignment leaves the raw field at the assigned value and the shadow
    field at its normal form. *)
Lemma unit_set_name_sync (v : option string) (u : IngredientUnitModel.t) :
  let u' := IngredientUnitModel.set_name normalize v u in
  IngredientUnitModel.name u' = v /\
  IngredientUnitModel.name_normalized u' = Normalize normalize v.
Proof. destruct v; split; reflexivity. Qed.

Lemma unit_set_abbreviation_sync (v : option string)
  (u : IngredientUnitModel.t) :
  let u' := IngredientUnitModel.set_abbreviation normalize v u in
  IngredientUnitModel.abbreviation u' = v /\
  IngredientUnitModel.abbreviation_normalized u' = Normalize normalize v.
Proof. destruct v; split; reflexivity. Qed.

Lemma food_set_name_sync (v : option string) (f : IngredientFoodModel.t) :
  let f' := IngredientFoodModel.set_name normalize v f in
  IngredientFoodModel.name f' = v /\
  IngredientFoodModel.name_normalized f' = Normalize normalize v.
Proof. destruct v; split; reflexivity. Qed.

Lemma recipe_set_note_sync (v : option string) (r : RecipeIngredientModel.t) :
  let r' := RecipeIngredientModel.set_note normalize v r in
  RecipeIngredientModel.note r' = v /\
  RecipeIngredientModel.note_normalized r' = Normalize normalize v.
Proof. destruct v; split; reflexivity. Qed.

Lemma recipe_set_original_text_sync (v : option string)
  (r : RecipeIngredientModel.t) :
  let r' := RecipeIngredientModel.set_original_text normalize v r in
  RecipeIngredientModel.original_text r' = v /\
  RecipeIngredientModel.original_text_normalized r' = Normalize normalize v.
Proof. destruct v; split; reflexivity. Qed.

(** An assignment to one raw field of an instance leaves the other pair of
    that instance as it was. *)
Lemma unit_set_name_frame (v : option string) (u : IngredientUnitModel.t) :
  let u' := IngredientUnitModel.set_name normalize v u in
  IngredientUnitModel.abbreviation u' = IngredientUnitModel.abbreviation u /\
  IngredientUnitModel.abbreviation_normalized u' =
  IngredientUnitModel.abbreviation_normalized u.
Proof. destruct v; split; reflexivity. Qed.

Lemma unit_set_abbreviation_frame (v : option string)
  (u : IngredientUnitModel.t) :
  let u' := IngredientUnitModel.set_abbreviation normalize v u in
  IngredientUnitModel.name u' = IngredientUnitModel.name u /\
  IngredientUnitModel.name_normalized u' =
  IngredientUnitModel.name_normalized u.
Proof. destruct v; split; reflexivity. Qed.

Lemma recipe_set_note_frame (v : option string)
  (r : RecipeIngredientModel.t) :
  let r' := RecipeIngredientModel.set_note normalize v r in
  RecipeIngredientModel.original_text r' =
  RecipeIngredientModel.original_text r /\
  RecipeIngredientModel.original_text_normalized r' =
  RecipeIngredientModel.original_text_normalized r.
Proof. destruct v; split; reflexivity. Qed.

Lemma recipe_set_original_text_frame (v : option string)
  (r : RecipeIngredientModel.t) :
  let r' := RecipeIngredientModel.set_original_text normalize v r in
  RecipeIngredientModel.note r' = RecipeIngredientModel.note r /\
  RecipeIngredientModel.note_normalized r' =
  RecipeIngredientModel.note_normalized r.
Proof. destruct v; split; reflexivity. Qed.

(** Once both pairs of an instance are synchronized, no sequence of
    assignments to its raw fields breaks that. *)
Lemma unit_run_synchronized (l : list IngredientUnitModel.assignment) :
  forall u,
    IngredientUnitModel.synchronized normalize u ->
    IngredientUnitModel.synchronized normalize
      (IngredientUnitModel.run normalize l u).
Proof.
  induction l as [|a l IH]; intros u Hu; [exact Hu|].
  apply IH. destruct Hu as [Hn Ha].
  destruct a as [v|v]; cbn [IngredientUnitModel.assign].
  - destruct (unit_set_name_sync v u) as [E1 E2].
    destruct (unit_set_name_frame v u) as [F1 F2].
    split; [now rewrite E2, E1 | now rewrite F2, F1].
  - destruct (unit_set_abbreviation_sync v u) as [E1 E2].
    destruct (unit_set_abbreviation_frame v u) as [F1 F2].
    split; [now rewrite F2, F1 | now rewrite E2, E1].
Qed.

Lemma food_run_synchronized (l : list IngredientFoodModel.assignment) :
  forall f,
    IngredientFoodModel.synchronized normalize f ->
    IngredientFoodModel.synchronized normalize
      (IngredientFoodModel.run normalize l f).
Proof.
  induction l as [|a l IH]; intros f Hf; [exact Hf|].
  apply IH. destruct a as [v]; cbn [IngredientFoodModel.assign].
  destruct (food_set_name_sync v f) as [E1 E2].
  red. now rewrite E2, E1.
Qed.

Lemma recipe_run_synchronized (l : list RecipeIngredientModel.assignment) :
  forall r,
    RecipeIngredientModel.synchronized normalize r ->
    RecipeIngredientModel.synchronized normalize
      (RecipeIngredientModel.run normalize l r).
Proof.
  induction l as [|a l IH]; intros r Hr; [exact Hr|].
  apply IH. destruct Hr as [Hn Ho].
  destruct a as [v|v]; cbn [RecipeIngredientModel.assign].
  - destruct (recipe_set_note_sync v r) as [E1 E2].
    destruct (recipe_set_note_frame v r) as [F1 F2].
    split; [now rewrite E2, E1 | now rewrite F2, F1].
  - destruct (recipe_set_original_text_sync v r) as [E1 E2].
    destruct (recipe_set_original_text_frame v r) as [F1 F2].
    split; [now rewrite F2, F1 | now rewrite E2, E1].
Qed.

(** [Normalize] inherits idempotence from the normalizer on text. *)
Lemma Normalize_idempotent :
  (forall s, normalize (normalize s) = normalize s) ->
  forall raw,
    Normalize normalize (Normalize normalize raw) = Normalize normalize raw.
Proof. intros H [s|]; simpl; [now rewrite H | reflexivity]. Qed.

(** C1.  Synchronization under direct assignment.  For each of the five
    registered pairs (Unit.name, Unit.abbreviation, Food.name, the note and
    the original text of an ingredient line), for every instance and every
    sequence of assignments to the raw fields of that instance: right after
    each assignment of the sequence (the sequence cut after it is
    [pre ++ [a]]), the raw field holds the assigned value and the shadow
    field equals [Normalize] of the raw field. *)
Theorem shadow_synchronized_after_each_assignment :
  (forall pre v u,
     let u' := IngredientUnitModel.run normalize
                 (pre ++ [IngredientUnitModel.AssignName v]) u in
     IngredientUnitModel.name u' = v /\
     IngredientUnitModel.name_normalized u' =
     Normalize normalize (IngredientUnitModel.name u')) /\
  (forall pre v u,
     let u' := IngredientUnitModel.run normalize
                 (pre ++ [IngredientUnitModel.AssignAbbreviation v]) u in
     IngredientUnitModel.abbreviation u' = v /\
     IngredientUnitModel.abbreviation_normalized u' =
     Normalize normalize (IngredientUnitModel.abbreviation u')) /\
  (forall pre v f,
     let f' := IngredientFoodModel.run normalize
                 (pre ++ [IngredientFoodModel.AssignName v]) f in
     IngredientFoodModel.name f' = v /\
     IngredientFoodModel.name_normalized f' =
     Normalize normalize (IngredientFoodModel.name f')) /\
  (forall pre v r,
     let r' := RecipeIngredientModel.run normalize
                 (pre ++ [RecipeIngredientModel.AssignNote v]) r in
     RecipeIngredientModel.note r' = v /\
     RecipeIngredientModel.note_normalized r' =
     Normalize normalize (RecipeIngredientModel.note r')) /\
  (forall pre v r,
     let r' := RecipeIngredientModel.run normalize
                 (pre ++ [RecipeIngredientModel.AssignOriginalText v]) r in
     RecipeIngredientModel.original_text r' = v /\
     RecipeIngredientModel.original_text_normalized r' =
     Normalize normalize (RecipeIngredientModel.original_text r')).
Proof.
  repeat split; intros; cbv zeta;
    rewrite ?unit_run_snoc, ?food_run_snoc, ?recipe_run_snoc;
    destruct v; reflexivity.
Qed.

(** C5.  Null propagation.  For each of the five registered pairs and every
    instance, whatever its shadow field held before, assigning null to the
    raw field leaves the raw field null and the shadow field null. *)
Theorem null_assignment_clears_shadow :
  (forall u,
     IngredientUnitModel.name (IngredientUnitModel.set_name normalize None u)
     = None /\
     IngredientUnitModel.name_normalized
       (IngredientUnitModel.set_name normalize None u) = None) /\
  (forall u,
     IngredientUnitModel.abbreviation
       (IngredientUnitModel.set_abbreviation normalize None u) = None /\
     IngredientUnitModel.abbreviation_normalized
       (IngredientUnitModel.set_abbreviation normalize None u) = None) /\
  (forall f,
     IngredientFoodModel.name (IngredientFoodModel.set_name normalize None f)
     = None /\
     IngredientFoodModel.name_normalized
       (IngredientFoodModel.set_name normalize None f) = None) /\
  (forall r,
     RecipeIngredientModel.note
       (RecipeIngredientModel.set_note normalize None r) = None /\
     RecipeIngredientModel.note_normalized
       (RecipeIngredientModel.set_note normalize None r) = None) /\
  (forall r,
     RecipeIngredientModel.original_text
       (RecipeIngredientModel.set_original_text normalize None r) = None /\
     RecipeIngredientModel.original_text_normalized
       (RecipeIngredientModel.set_original_text normalize None r) = None).
Proof. repeat split. Qed.

End ShadowFields.

(** ** Construction *)

Section Construction.

Variable normalize : string -> string.

(** The plan a constructor stores is the list it builds for the session. *)
Lemma unit_new_table_args events session kwargs :
  IngredientUnitModel.__table_args__
    (IngredientUnitModel.new normalize events session kwargs)
  = IngredientUnitModel.tableargs session.
Proof. reflexivity. Qed.

Lemma food_new_table_args events session kwargs :
  IngredientFoodModel.__table_args__
    (IngredientFoodModel.new normalize events session kwargs)
  = IngredientFoodModel.tableargs session.
Proof. reflexivity. Qed.

Lemma recipe_new_table_args events session kwargs :
  RecipeIngredientModel.__table_args__
    (RecipeIngredientModel.new normalize events session kwargs)
  = RecipeIngredientModel.tableargs session.
Proof. reflexivity. Qed.

(** The body of the Unit constructor assigns the normalized abbreviation to
    the raw attribute [abbreviation]. *)
Lemma unit_new_abbreviation events session kwargs a :
  kwarg "abbreviation" kwargs = Some a ->
  IngredientUnitModel.abbreviation
    (IngredientUnitModel.new normalize events session kwargs)
  = Some (normalize a).
Proof.
  intros Ha. unfold IngredientUnitModel.new, IngredientUnitModel.__init__.
  rewrite Ha. reflexivity.
Qed.

(** The listener then stores the normal form of what was assigned. *)
Lemma unit_new_abbreviation_normalized events session kwargs a :
  kwarg "abbreviation" kwargs = Some a ->
  IngredientUnitModel.abbreviation_normalized
    (IngredientUnitModel.new normalize events session kwargs)
  = Some (normalize (normalize a)).
Proof.
  intros Ha. unfold IngredientUnitModel.new, IngredientUnitModel.__init__.
  rewrite Ha. reflexivity.
Qed.

(** The name of a Unit and of a Food, and the note of a line, are recomputed
    by the body into the shadow field itself. *)
Lemma unit_new_name_normalized events session kwargs n :
  kwarg "name" kwargs = Some n ->
  IngredientUnitModel.name_normalized
    (IngredientUnitModel.new normalize events session kwargs)
  = Some (normalize n).
Proof.
  intros Hn. unfold IngredientUnitModel.new, IngredientUnitModel.__init__.
  rewrite Hn. destruct (kwarg "abbreviation" kwargs); reflexivity.
Qed.

Lemma food_new_name_normalized events session kwargs n :
  kwarg "name" kwargs = Some n ->
  IngredientFoodModel.name_normalized
    (IngredientFoodModel.new normalize events session kwargs)
  = Some (normalize n).
Proof.
  intros Hn. unfold IngredientFoodModel.new, IngredientFoodModel.__init__.
  rewrite Hn. reflexivity.
Qed.

Lemma recipe_new_note_normalized events session kwargs n :
  kwarg "note" kwargs = Some n ->
  RecipeIngredientModel.note_normalized
    (RecipeIngredientModel.new normalize events session kwargs)
  = Some (normalize n).
Proof.
  intros Hn. unfold RecipeIngredientModel.new, RecipeIngredientModel.__init__.
  rewrite Hn. destruct (kwarg "orginal_text" kwargs); reflexivity.
Qed.

(** The body of the line constructor never writes
    [original_text_normalized] nor [original_text]: both are what the
    population step left. *)
Lemma recipe_new_original_text events session kwargs :
  let populated := RecipeIngredientModel.auto_init normalize events kwargs
                     RecipeIngredientModel.blank in
  let r := RecipeIngredientModel.new normalize events session kwargs in
  RecipeIngredientModel.original_text r =
  RecipeIngredientModel.original_text populated /\
  RecipeIngredientModel.original_text_normalized r =
  RecipeIngredientModel.original_text_normalized populated.
Proof.
  unfold RecipeIngredientModel.new, RecipeIngredientModel.__init__.
  destruct (kwarg "note" kwargs), (kwarg "orginal_text" kwargs);
    split; reflexivity.
Qed.

(** The population step stores in [original_text] the entry of that name. *)
Lemma recipe_auto_init_original_text events (kwargs : Kwargs) :
  forall self acc,
    RecipeIngredientModel.original_text self = acc ->
    RecipeIngredientModel.original_text
      (RecipeIngredientModel.auto_init normalize events kwargs self)
    = fold_left
        (fun acc kv =>
           if String.eqb (fst kv) "original_text" then snd kv else acc)
        kwargs acc.
Proof.
  unfold RecipeIngredientModel.auto_init.
  induction kwargs as [|[k v] kwargs IH]; intros self acc Hacc; [exact Hacc|].
  cbn [fold_left fst snd]. apply IH. unfold RecipeIngredientModel.setattr.
  destruct (String.eqb k "title") eqn:E1;
    [apply String.eqb_eq in E1; subst k; exact Hacc|].
  destruct (String.eqb k "note") eqn:E2;
    [apply String.eqb_eq in E2; subst k; destruct events, v; exact Hacc|].
  destruct (String.eqb k "original_text") eqn:E3;
    [destruct events, v; reflexivity|].
  destruct (String.eqb k "note_normalized"); [exact Hacc|].
  destruct (String.eqb k "original_text_normalized"); exact Hacc.
Qed.

(** Unobserved by the listeners, the population step writes
    [original_text_normalized] only for an entry of that very name. *)
Lemma recipe_auto_init_unobserved_shadow (kwargs : Kwargs) :
  forall self,
    (forall v, ~ In ("original_text_normalized", v) kwargs) ->
    RecipeIngredientModel.original_text_normalized
      (RecipeIngredientModel.auto_init normalize false kwargs self)
    = RecipeIngredientModel.original_text_normalized self.
Proof.
  unfold RecipeIngredientModel.auto_init.
  induction kwargs as [|[k v] kwargs IH]; intros self Hkeys; [reflexivity|].
  cbn [fold_left]. rewrite IH.
  - unfold RecipeIngredientModel.setattr.
    destruct (String.eqb k "title"); [reflexivity|].
    destruct (String.eqb k "note"); [reflexivity|].
    destruct (String.eqb k "original_text"); [reflexivity|].
    destruct (String.eqb k "note_normalized"); [reflexivity|].
    destruct (String.eqb k "original_text_normalized") eqn:E; [|reflexivity].
    apply String.eqb_eq in E. subst k. exfalso. apply (Hkeys v). now left.
  - intros w Hw. apply (Hkeys w). now right.
Qed.

(** So for every field map that gives an original text and does not write
    the shadow column itself, a line constructed without the listeners
    observing the population step has its original text and a null
    [original_text_normalized]. *)
Lemma recipe_new_unobserved_original_text session (kwargs : Kwargs) text :
  kwarg "original_text" kwargs = Some text ->
  (forall v, ~ In ("original_text_normalized", v) kwargs) ->
  let r := RecipeIngredientModel.new normalize false session kwargs in
  RecipeIngredientModel.original_text r = Some text /\
  RecipeIngredientModel.original_text_normalized r = None.
Proof.
  intros Htext Hkeys.
  destruct (recipe_new_original_text false session kwargs) as [E1 E2].
  cbv zeta. rewrite E1, E2. split.
  - rewrite (recipe_auto_init_original_text false kwargs
               RecipeIngredientModel.blank None eq_refl).
    exact Htext.
  - now rewrite recipe_auto_init_unobserved_shadow.
Qed.

(** C10.  Unit construction with an abbreviation, for an idempotent
    normalizer.  For every Unit constructed from a field map whose
    abbreviation is the text [a], whether or not the listeners observe the
    population step: the body assigns [normalize a] to the raw attribute,
    the listener of that attribute stores [normalize (normalize a)], and so
    after construction [abbreviation_normalized] equals [Normalize a]. *)
Theorem unit_abbreviation_normalized_after_construction
  (Hidem : forall s, normalize (normalize s) = normalize s)
  (events : bool) (session : Session) (kwargs : Kwargs) (a : string)
  (Ha : kwarg "abbreviation" kwargs = Some a) :
  let u := IngredientUnitModel.new normalize events session kwargs in
  IngredientUnitModel.abbreviation u = Some (normalize a) /\
  IngredientUnitModel.abbreviation_normalized u
  = Normalize normalize (Some a).
Proof.
  split.
  - now apply unit_new_abbreviation.
  - rewrite (unit_new_abbreviation_normalized events session kwargs a Ha).
    simpl. now rewrite Hidem.
Qed.

(** ** Index plans *)

Lemma capability_is_postgresql (s1 s2 : Session) :
  capability s1 = capability s2 -> is_postgresql s1 = is_postgresql s2.
Proof.
  unfold capability.
  destruct (is_postgresql s1), (is_postgresql s2); congruence.
Qed.

Lemma other_engine_not_postgresql (session : Session) :
  engine_name (get_bind session) <> "postgresql" ->
  is_postgresql session = false.
Proof. intros H. now apply String.eqb_neq. Qed.

(** Where the plans hold one plain index per shadow field, and one trigram
    index on it exactly under PostgreSQL: every shadow field of Unit and
    Food, and [note_normalized] of the ingredient line.  For
    [original_text_normalized] the plain index is there under either
    family. *)
Lemma index_families_of_the_plans (session : Session) :
  let trigram := if is_postgresql session then 1 else 0 in
  let unit_plan := IngredientUnitModel.tableargs session in
  let food_plan := IngredientFoodModel.tableargs session in
  let line_plan := RecipeIngredientModel.tableargs session in
  (length (plain_indexes_on "name_normalized" unit_plan) = 1 /\
   length (trigram_indexes_on "name_normalized" unit_plan) = trigram) /\
  (length (plain_indexes_on "abbreviation_normalized" unit_plan) = 1 /\
   length (trigram_indexes_on "abbreviation_normalized" unit_plan) = trigram) /\
  (length (plain_indexes_on "name_normalized" food_plan) = 1 /\
   length (trigram_indexes_on "name_normalized" food_plan) = trigram) /\
  (length (plain_indexes_on "note_normalized" line_plan) = 1 /\
   length (trigram_indexes_on "note_normalized" line_plan) = trigram) /\
  length (plain_indexes_on "original_text_normalized" line_plan) = 1.
Proof.
  unfold IngredientUnitModel.tableargs, IngredientFoodModel.tableargs,
    RecipeIngredientModel.tableargs.
  destruct (is_postgresql session); repeat split.
Qed.

(** C4, as the code has it.  The test on the engine name has two outcomes
    and no failure: for every session whose engine is not named
    "postgresql", whatever the name, the capability is [Generic] and each
    constructor returns an instance whose plan is the base list, without any
    accelerated index. *)
Theorem every_other_engine_gets_the_generic_plan
  (events : bool) (session : Session) (kwargs : Kwargs)
  (Hname : engine_name (get_bind session) <> "postgresql") :
  let unit_plan := IngredientUnitModel.__table_args__
                     (IngredientUnitModel.new normalize events session kwargs) in
  let food_plan := IngredientFoodModel.__table_args__
                     (IngredientFoodModel.new normalize events session kwargs) in
  let line_plan := RecipeIngredientModel.__table_args__
                     (RecipeIngredientModel.new normalize events session kwargs) in
  capability session = Generic /\
  unit_plan =
    [ UniqueConstraint ["name"; "group_id"] "ingredient_units_name_group_id_key";
      Index "ix_ingredient_units_name_normalized"
            ["name_normalized"] false None [];
      Index "ix_ingredient_units_abbreviation_normalized"
            ["abbreviation_normalized"] false None [] ] /\
  food_plan =
    [ UniqueConstraint ["name"; "group_id"] "ingredient_foods_name_group_id_key";
      Index "ix_ingredient_foods_name_normalized"
            ["name_normalized"] false None [] ] /\
  line_plan =
    [ Index "ix_recipes_ingredients_note_normalized"
            ["note_normalized"] false None [];
      Index "ix_recipes_ingredients_original_text_normalized"
            ["original_text_normalized"] false None [] ] /\
  filter is_accelerated (unit_plan ++ food_plan ++ line_plan) = [].
Proof.
  cbv zeta.
  rewrite unit_new_table_args, food_new_table_args, recipe_new_table_args.
  unfold capability, IngredientUnitModel.tableargs,
    IngredientFoodModel.tableargs, RecipeIngredientModel.tableargs.
  rewrite (other_engine_not_postgresql session Hname).
  repeat split.
Qed.


(** C9.  The plan depends on the entity type and the capability family
    only: two constructions of the same class, from any field maps, under
    sessions of the same family store the same plan.  In every plan each
    index is named [ix_<table>_<field>_normalized], with [_gin] appended
    exactly when it has an access method, and each uniqueness constraint is
    named [<table>_<field>_<scope>_key] after its two columns. *)
Theorem index_plan_is_a_function_of_entity_and_capability
  (s1 s2 : Session) (Hfamily : capability s1 = capability s2)
  (ev1 ev2 : bool) (kw1 kw2 : Kwargs) :
  (IngredientUnitModel.__table_args__
     (IngredientUnitModel.new normalize ev1 s1 kw1) =
   IngredientUnitModel.__table_args__
     (IngredientUnitModel.new normalize ev2 s2 kw2) /\
   IngredientFoodModel.__table_args__
     (IngredientFoodModel.new normalize ev1 s1 kw1) =
   IngredientFoodModel.__table_args__
     (IngredientFoodModel.new normalize ev2 s2 kw2) /\
   RecipeIngredientModel.__table_args__
     (RecipeIngredientModel.new normalize ev1 s1 kw1) =
   RecipeIngredientModel.__table_args__
     (RecipeIngredientModel.new normalize ev2 s2 kw2)) /\
  Forall (name_matches IngredientUnitModel.__tablename__
            IngredientUnitModel.raw_fields)
    (IngredientUnitModel.__table_args__
       (IngredientUnitModel.new normalize ev1 s1 kw1)) /\
  Forall (name_matches IngredientFoodModel.__tablename__
            IngredientFoodModel.raw_fields)
    (IngredientFoodModel.__table_args__
       (IngredientFoodModel.new normalize ev1 s1 kw1)) /\
  Forall (name_matches RecipeIngredientModel.__tablename__
            RecipeIngredientModel.raw_fields)
    (RecipeIngredientModel.__table_args__
       (RecipeIngredientModel.new normalize ev1 s1 kw1)).
Proof.
  rewrite !unit_new_table_args, !food_new_table_args, !recipe_new_table_args.
  unfold IngredientUnitModel.tableargs, IngredientFoodModel.tableargs,
    RecipeIngredientModel.tableargs.
  rewrite <- (capability_is_postgresql s1 s2 Hfamily).
  split; [repeat split|].
  destruct (is_postgresql s1); repeat split;
    repeat (apply Forall_cons || apply Forall_nil);
    solve [ do 2 eexists; split; reflexivity | index_of_field ].
Qed.

End Construction.

(** ** The normalizer of the specification *)

(** C8.  [Normalize], built on the normalizer modelled from section 4.1, is
    idempotent on every nullable text, gives equal results on equal inputs,
    and maps null to null.  It is a total function of its argument alone, so
    it has no effect besides its result. *)
Theorem normalize_idempotent_deterministic_null_preserving :
  (forall t : option string,
     Normalize TextNormalizer.normalize (Normalize TextNormalizer.normalize t)
     = Normalize TextNormalizer.normalize t) /\
  (forall t t' : option string,
     t = t' ->
     Normalize TextNormalizer.normalize t
     = Normalize TextNormalizer.normalize t') /\
  Normalize TextNormalizer.normalize None = None.
Proof.
  split; [|split].
  - apply Normalize_idempotent, normalize_idempotent.
  - intros t t' ->. reflexivity.
  - reflexivity.
Qed.

(** ** The constructors on concrete field maps *)

(** C6, on the code.  A Unit constructed with the abbreviation "Tbsp" (and
    the name "Tablespoon"), whether or not the listeners observe the
    population step: after construction the raw attribute [abbreviation]
    holds the normalized text "tbsp", not "Tbsp", while the raw [name] is
    the text that was given. *)
Theorem unit_constructor_overwrites_raw_abbreviation (events : bool) :
  let session := {| get_bind := {| engine_name := "sqlite" |} |} in
  let u := IngredientUnitModel.new TextNormalizer.normalize events session
             [("name", Some "Tablespoon"); ("abbreviation", Some "Tbsp")] in
  IngredientUnitModel.abbreviation u = Some "tbsp" /\
  IngredientUnitModel.abbreviation u <> Some "Tbsp" /\
  IngredientUnitModel.name u = Some "Tablespoon" /\
  IngredientUnitModel.name_normalized u = Some "tablespoon".
Proof. destruct events; repeat split; discriminate. Qed.

(** C3, on the code.  An ingredient line constructed from a field map with
    the note "Finely  Chopped" and the original text "2 Cloves, minced".
    When the listeners do not observe the population step, the note's shadow
    field is recomputed by the body, but [original_text_normalized] is still
    null after construction although [original_text] is set: the body's
    parameter [orginal_text] received nothing.  The shadow field is set only
    when the listeners do observe the population step.  A caller who spells
    the key [orginal_text] gets an attribute of that name and neither
    column. *)
Theorem line_constructor_leaves_original_text_normalized_unset :
  let session := {| get_bind := {| engine_name := "sqlite" |} |} in
  let kwargs := [("note", Some "Finely  Chopped");
                 ("original_text", Some "2 Cloves, minced")] in
  let r := RecipeIngredientModel.new TextNormalizer.normalize false session
             kwargs in
  let observed := RecipeIngredientModel.new TextNormalizer.normalize true
                    session kwargs in
  let misspelled := RecipeIngredientModel.new TextNormalizer.normalize false
                      session [("orginal_text", Some "2 Cloves, minced")] in
  (RecipeIngredientModel.original_text r = Some "2 Cloves, minced" /\
   RecipeIngredientModel.original_text_normalized r = None /\
   Normalize TextNormalizer.normalize (RecipeIngredientModel.original_text r)
   = Some "2 cloves, minced" /\
   RecipeIngredientModel.note_normalized r = Some "finely chopped") /\
  RecipeIngredientModel.original_text_normalized observed
  = Some "2 cloves, minced" /\
  (RecipeIngredientModel.orginal_text misspelled = Some "2 cloves, minced" /\
   RecipeIngredientModel.original_text misspelled = None /\
   RecipeIngredientModel.original_text_normalized misspelled = None).
Proof. repeat split. Qed.

(** C2, on the code.  The plan of an ingredient line constructed under
    PostgreSQL: the family is [TrigramCapable], there is one plain index on
    each shadow field and one trigram index on [note_normalized], but no
    trigram index on [original_text_normalized]: the second GIN index is
    declared on the raw column [original_text]. *)
Theorem line_plan_has_no_trigram_index_on_original_text_normalized :
  let session := {| get_bind := {| engine_name := "postgresql" |} |} in
  let plan := RecipeIngredientModel.__table_args__
                (RecipeIngredientModel.new TextNormalizer.normalize true
                   session [("original_text", Some "2 Cloves, minced")]) in
  capability session = TrigramCapable /\
  length (plain_indexes_on "original_text_normalized" plan) = 1 /\
  length (trigram_indexes_on "note_normalized" plan) = 1 /\
  trigram_indexes_on "original_text_normalized" plan = [] /\
  filter is_accelerated plan =
    [ Index "ix_recipes_ingredients_note_normalized_gin"
            ["note_normalized"] false (Some "gin")
            [("note_normalized", "gin_trgm_ops")];
      Index "ix_recipes_ingredients_original_text_normalized_gin"
            ["original_text"] false (Some "gin")
            [("original_text_normalized", "gin_trgm_ops")] ].
Proof. repeat split. Qed.

(** A session bound to an engine named "unknown", a name no engine family
    answers to: construction goes through all the same.  The capability is
    [Generic] and the three constructors return instances with the base
    plans, the accelerated indexes left out without any signal. *)
Lemma unknown_engine_is_planned_as_generic :
  let session := {| get_bind := {| engine_name := "unknown" |} |} in
  let kwargs := [("name", Some "Tablespoon")] in
  capability session = Generic /\
  IngredientUnitModel.__table_args__
    (IngredientUnitModel.new TextNormalizer.normalize true session kwargs) =
    [ UniqueConstraint ["name"; "group_id"] "ingredient_units_name_group_id_key";
      Index "ix_ingredient_units_name_normalized"
            ["name_normalized"] false None [];
      Index "ix_ingredient_units_abbreviation_normalized"
            ["abbreviation_normalized"] false None [] ] /\
  IngredientFoodModel.__table_args__
    (IngredientFoodModel.new TextNormalizer.normalize true session kwargs) =
    [ UniqueConstraint ["name"; "group_id"] "ingredient_foods_name_group_id_key";
      Index "ix_ingredient_foods_name_normalized"
            ["name_normalized"] false None [] ] /\
  RecipeIngredientModel.__table_args__
    (RecipeIngredientModel.new TextNormalizer.normalize true session kwargs) =
    [ Index "ix_recipes_ingredients_note_normalized"
            ["note_normalized"] false None [];
      Index "ix_recipes_ingredients_original_text_normalized"
            ["original_text_normalized"] false None [] ].
Proof. repeat split. Qed.

(** ** Instances of the conditional theorems *)

Lemma every_other_engine_gets_the_generic_plan_witness :
  let session := {| get_bind := {| engine_name := "sqlite" |} |} in
  engine_name (get_bind session) <> "postgresql" /\
  capability session = Generic /\
  filter is_accelerated
    (IngredientUnitModel.__table_args__
       (IngredientUnitModel.new TextNormalizer.normalize false session [])
     ++ IngredientFoodModel.__table_args__
          (IngredientFoodModel.new TextNormalizer.normalize false session [])
     ++ RecipeIngredientModel.__table_args__
          (RecipeIngredientModel.new TextNormalizer.normalize false session []))
  = [].
Proof.
  assert (H : engine_name {| engine_name := "sqlite" |} <> "postgresql")
    by discriminate.
  split; [exact H|].
  pose proof (every_other_engine_gets_the_generic_plan
                TextNormalizer.normalize false
                {| get_bind := {| engine_name := "sqlite" |} |} [] H) as P.
  cbv zeta in P. split; [apply P | apply P].
Defined.

Lemma unit_abbreviation_normalized_after_construction_witness :
  let session := {| get_bind := {| engine_name := "sqlite" |} |} in
  let kwargs := [("name", Some "Tablespoon"); ("abbreviation", Some " Tbsp ")] in
  kwarg "abbreviation" kwargs = Some " Tbsp " /\
  IngredientUnitModel.abbreviation_normalized
    (IngredientUnitModel.new TextNormalizer.normalize false session kwargs)
  = Some "tbsp".
Proof.
  split; [reflexivity|].
  exact (proj2 (unit_abbreviation_normalized_after_construction
                  TextNormalizer.normalize normalize_idempotent false
                  {| get_bind := {| engine_name := "sqlite" |} |}
                  [("name", Some "Tablespoon"); ("abbreviation", Some " Tbsp ")]
                  " Tbsp " eq_refl)).
Defined.


Lemma index_plan_is_a_function_of_entity_and_capability_witness :
  let sqlite := {| get_bind := {| engine_name := "sqlite" |} |} in
  let mysql := {| get_bind := {| engine_name := "mysql" |} |} in
  capability sqlite = capability mysql /\
  IngredientUnitModel.__table_args__
    (IngredientUnitModel.new TextNormalizer.normalize true sqlite
       [("name", Some "Cup")]) =
  IngredientUnitModel.__table_args__
    (IngredientUnitModel.new TextNormalizer.normalize false mysql
       [("name", Some "Pinch"); ("abbreviation", Some "pn")]).
Proof.
  split; [reflexivity|].
  apply (index_plan_is_a_function_of_entity_and_capability
           TextNormalizer.normalize
           {| get_bind := {| engine_name := "sqlite" |} |}
           {| get_bind := {| engine_name := "mysql" |} |}
           eq_refl true false
           [("name", Some "Cup")]
           [("name", Some "Pinch"); ("abbreviation", Some "pn")]).
Defined.

(** * Further properties of the listeners, the plans and the constructors *)

(** Splits on the key of a field-map entry, one attribute name at a time. *)
Ltac split_key k :=
  repeat match goal with
    | |- context [String.eqb k ?s] =>
        let E := fresh "E" in
        destruct (String.eqb k s) eqn:E;
        [apply String.eqb_eq in E; subst k; cbn | ]
    end.

Section Listeners.

Variable normalize : string -> string.

(** Each pair, once synchronized, stays so under every assignment
    sequence, whatever the state of the other pair. *)
Lemma unit_run_keeps_name_pair (l : list IngredientUnitModel.assignment) :
  forall u,
    IngredientUnitModel.name_normalized u
    = Normalize normalize (IngredientUnitModel.name u) ->
    IngredientUnitModel.name_normalized (IngredientUnitModel.run normalize l u)
    = Normalize normalize
        (IngredientUnitModel.name (IngredientUnitModel.run normalize l u)).
Proof.
  induction l as [|a l IH]; intros u Hu; [exact Hu|].
  apply IH. destruct a as [v|v]; destruct v; solve [reflexivity | exact Hu].
Qed.

Lemma unit_run_keeps_abbreviation_pair
  (l : list IngredientUnitModel.assignment) :
  forall u,
    IngredientUnitModel.abbreviation_normalized u
    = Normalize normalize (IngredientUnitModel.abbreviation u) ->
    IngredientUnitModel.abbreviation_normalized
      (IngredientUnitModel.run normalize l u)
    = Normalize normalize
        (IngredientUnitModel.abbreviation
           (IngredientUnitModel.run normalize l u)).
Proof.
  induction l as [|a l IH]; intros u Hu; [exact Hu|].
  apply IH. destruct a as [v|v]; destruct v; solve [reflexivity | exact Hu].
Qed.

Lemma recipe_run_keeps_note_pair
  (l : list RecipeIngredientModel.assignment) :
  forall r,
    RecipeIngredientModel.note_normalized r
    = Normalize normalize (RecipeIngredientModel.note r) ->
    RecipeIngredientModel.note_normalized
      (RecipeIngredientModel.run normalize l r)
    = Normalize normalize
        (RecipeIngredientModel.note
           (RecipeIngredientModel.run normalize l r)).
Proof.
  induction l as [|a l IH]; intros r Hr; [exact Hr|].
  apply IH. destruct a as [v|v]; destruct v; solve [reflexivity | exact Hr].
Qed.

Lemma recipe_run_keeps_original_text_pair
  (l : list RecipeIngredientModel.assignment) :
  forall r,
    RecipeIngredientModel.original_text_normalized r
    = Normalize normalize (RecipeIngredientModel.original_text r) ->
    RecipeIngredientModel.original_text_normalized
      (RecipeIngredientModel.run normalize l r)
    = Normalize normalize
        (RecipeIngredientModel.original_text
           (RecipeIngredientModel.run normalize l r)).
Proof.
  induction l as [|a l IH]; intros r Hr; [exact Hr|].
  apply IH. destruct a as [v|v]; destruct v; solve [reflexivity | exact Hr].
Qed.

(** X1.  A later assignment to a raw field overrides an earlier one
    completely: for each of the five raw fields, every instance and all
    values [w] then [v], assigning [w] and then [v] leaves the instance
    exactly as assigning [v] alone does (in particular, assigning the same
    value twice is assigning it once). *)
Theorem later_assignment_overrides_earlier :
  (forall v w u,
     IngredientUnitModel.set_name normalize v
       (IngredientUnitModel.set_name normalize w u)
     = IngredientUnitModel.set_name normalize v u) /\
  (forall v w u,
     IngredientUnitModel.set_abbreviation normalize v
       (IngredientUnitModel.set_abbreviation normalize w u)
     = IngredientUnitModel.set_abbreviation normalize v u) /\
  (forall v w f,
     IngredientFoodModel.set_name normalize v
       (IngredientFoodModel.set_name normalize w f)
     = IngredientFoodModel.set_name normalize v f) /\
  (forall v w r,
     RecipeIngredientModel.set_note normalize v
       (RecipeIngredientModel.set_note normalize w r)
     = RecipeIngredientModel.set_note normalize v r) /\
  (forall v w r,
     RecipeIngredientModel.set_original_text normalize v
       (RecipeIngredientModel.set_original_text normalize w r)
     = RecipeIngredientModel.set_original_text normalize v r).
Proof. repeat split; intros [?|] [?|] ?; reflexivity. Qed.

(** X2.  Assignments to the two raw fields of one instance commute: on a
    Unit, assigning the name and the abbreviation in either order gives the
    same instance, and so do the note and the original text of an
    ingredient line.  No listener reads or writes the other pair. *)
Theorem assignments_to_different_fields_commute :
  (forall v w u,
     IngredientUnitModel.set_name normalize v
       (IngredientUnitModel.set_abbreviation normalize w u)
     = IngredientUnitModel.set_abbreviation normalize w
         (IngredientUnitModel.set_name normalize v u)) /\
  (forall v w r,
     RecipeIngredientModel.set_note normalize v
       (RecipeIngredientModel.set_original_text normalize w r)
     = RecipeIngredientModel.set_original_text normalize w
         (RecipeIngredientModel.set_note normalize v r)).
Proof. repeat split; intros [?|] [?|] ?; reflexivity. Qed.

(** X3.  No sequence of assignments to raw fields changes anything but the
    raw/shadow pairs: on a Unit the group, the description and the stored
    plan are as before, on a Food also the label, and on an ingredient line
    the title, the attribute [orginal_text] and the stored plan. *)
Theorem assignments_change_only_the_text_pairs :
  (forall l u,
     let u' := IngredientUnitModel.run normalize l u in
     IngredientUnitModel.group_id u' = IngredientUnitModel.group_id u /\
     IngredientUnitModel.description u' = IngredientUnitModel.description u /\
     IngredientUnitModel.__table_args__ u'
     = IngredientUnitModel.__table_args__ u) /\
  (forall l f,
     let f' := IngredientFoodModel.run normalize l f in
     IngredientFoodModel.group_id f' = IngredientFoodModel.group_id f /\
     IngredientFoodModel.description f' = IngredientFoodModel.description f /\
     IngredientFoodModel.label_id f' = IngredientFoodModel.label_id f /\
     IngredientFoodModel.__table_args__ f'
     = IngredientFoodModel.__table_args__ f) /\
  (forall l r,
     let r' := RecipeIngredientModel.run normalize l r in
     RecipeIngredientModel.title r' = RecipeIngredientModel.title r /\
     RecipeIngredientModel.orginal_text r'
     = RecipeIngredientModel.orginal_text r /\
     RecipeIngredientModel.__table_args__ r'
     = RecipeIngredientModel.__table_args__ r).
Proof.
  split; [|split]; cbv zeta.
  - induction l as [|a l IH]; intros u; [repeat split|].
    destruct (IH (IngredientUnitModel.assign normalize u a)) as (H1 & H2 & H3).
    change (IngredientUnitModel.run normalize (a :: l) u)
      with (IngredientUnitModel.run normalize l (IngredientUnitModel.assign normalize u a)).
    rewrite H1, H2, H3. destruct a as [[?|]|[?|]]; repeat split.
  - induction l as [|a l IH]; intros f; [repeat split|].
    destruct (IH (IngredientFoodModel.assign normalize f a))
      as (H1 & H2 & H3 & H4).
    change (IngredientFoodModel.run normalize (a :: l) f)
      with (IngredientFoodModel.run normalize l (IngredientFoodModel.assign normalize f a)).
    rewrite H1, H2, H3, H4. destruct a as [[?|]]; repeat split.
  - induction l as [|a l IH]; intros r; [repeat split|].
    destruct (IH (RecipeIngredientModel.assign normalize r a))
      as (H1 & H2 & H3).
    change (RecipeIngredientModel.run normalize (a :: l) r)
      with (RecipeIngredientModel.run normalize l (RecipeIngredientModel.assign normalize r a)).
    rewrite H1, H2, H3. destruct a as [[?|]|[?|]]; repeat split.
Qed.

(** X4.  Synchronization is an invariant of assignment: a Unit, a Food and
    an ingredient line whose shadow fields all equal [Normalize] of their
    raw fields still have that after any sequence of assignments to their
    raw fields. *)
Theorem synchronization_is_kept_by_assignments
  (u : IngredientUnitModel.t) (f : IngredientFoodModel.t)
  (r : RecipeIngredientModel.t)
  (lu : list IngredientUnitModel.assignment)
  (lf : list IngredientFoodModel.assignment)
  (lr : list RecipeIngredientModel.assignment)
  (Hu : IngredientUnitModel.synchronized normalize u)
  (Hf : IngredientFoodModel.synchronized normalize f)
  (Hr : RecipeIngredientModel.synchronized normalize r) :
  IngredientUnitModel.synchronized normalize
    (IngredientUnitModel.run normalize lu u) /\
  IngredientFoodModel.synchronized normalize
    (IngredientFoodModel.run normalize lf f) /\
  RecipeIngredientModel.synchronized normalize
    (RecipeIngredientModel.run normalize lr r).
Proof.
  split; [|split].
  - now apply unit_run_synchronized.
  - now apply food_run_synchronized.
  - now apply recipe_run_synchronized.
Qed.

(** X5.  From its first assignment on, a raw field has the right shadow,
    whatever instance the sequence started from and whatever is assigned
    afterwards to any raw field of the instance: after [pre], an assignment
    to the field, and any [post], the shadow field equals [Normalize] of
    the raw field.  This holds for each of the five pairs. *)
Theorem shadow_stays_synchronized_after_first_assignment :
  (forall pre v post u,
     let u' := IngredientUnitModel.run normalize
                 (pre ++ IngredientUnitModel.AssignName v :: post) u in
     IngredientUnitModel.name_normalized u'
     = Normalize normalize (IngredientUnitModel.name u')) /\
  (forall pre v post u,
     let u' := IngredientUnitModel.run normalize
                 (pre ++ IngredientUnitModel.AssignAbbreviation v :: post) u in
     IngredientUnitModel.abbreviation_normalized u'
     = Normalize normalize (IngredientUnitModel.abbreviation u')) /\
  (forall pre v post f,
     let f' := IngredientFoodModel.run normalize
                 (pre ++ IngredientFoodModel.AssignName v :: post) f in
     IngredientFoodModel.name_normalized f'
     = Normalize normalize (IngredientFoodModel.name f')) /\
  (forall pre v post r,
     let r' := RecipeIngredientModel.run normalize
                 (pre ++ RecipeIngredientModel.AssignNote v :: post) r in
     RecipeIngredientModel.note_normalized r'
     = Normalize normalize (RecipeIngredientModel.note r')) /\
  (forall pre v post r,
     let r' := RecipeIngredientModel.run normalize
                 (pre ++ RecipeIngredientModel.AssignOriginalText v :: post) r in
     RecipeIngredientModel.original_text_normalized r'
     = Normalize normalize (RecipeIngredientModel.original_text r')).
Proof.
  repeat split; intros pre v post x; cbv zeta;
    unfold IngredientUnitModel.run, IngredientFoodModel.run,
      RecipeIngredientModel.run;
    rewrite fold_left_app; cbn [fold_left].
  - apply unit_run_keeps_name_pair. destruct v; reflexivity.
  - apply unit_run_keeps_abbreviation_pair. destruct v; reflexivity.
  - apply (food_run_synchronized normalize). destruct v; reflexivity.
  - apply recipe_run_keeps_note_pair. destruct v; reflexivity.
  - apply recipe_run_keeps_original_text_pair. destruct v; reflexivity.
Qed.

(** X6.  On a synchronized instance, assigning a raw field the value it
    already holds changes nothing at all. *)
Theorem reassigning_the_current_value_changes_nothing
  (u : IngredientUnitModel.t) (f : IngredientFoodModel.t)
  (r : RecipeIngredientModel.t)
  (Hu : IngredientUnitModel.synchronized normalize u)
  (Hf : IngredientFoodModel.synchronized normalize f)
  (Hr : RecipeIngredientModel.synchronized normalize r) :
  IngredientUnitModel.set_name normalize (IngredientUnitModel.name u) u = u /\
  IngredientUnitModel.set_abbreviation normalize
    (IngredientUnitModel.abbreviation u) u = u /\
  IngredientFoodModel.set_name normalize (IngredientFoodModel.name f) f = f /\
  RecipeIngredientModel.set_note normalize (RecipeIngredientModel.note r) r
  = r /\
  RecipeIngredientModel.set_original_text normalize
    (RecipeIngredientModel.original_text r) r = r.
Proof.
  destruct u as [ug un ud ua unn uan ut], f as [fg fn fd fl fnn ft],
    r as [rt rn ro rnn ron rx rp].
  destruct Hu as [Hu1 Hu2], Hr as [Hr1 Hr2]. red in Hf.
  cbn in Hu1, Hu2, Hf, Hr1, Hr2. subst unn uan fnn rnn ron.
  destruct un, ua, fn, rn, ro; repeat split.
Qed.

End Listeners.

(** ** More on the plans *)

(** X7.  The names of the schema items are pairwise distinct: under every
    engine, no two items of the three plans taken together (constraints and
    indexes of units, foods and ingredient lines) share a name. *)
Theorem schema_item_names_are_pairwise_distinct (session : Session) :
  NoDup
    (map item_name
       (IngredientUnitModel.tableargs session
        ++ IngredientFoodModel.tableargs session
        ++ RecipeIngredientModel.tableargs session)).
Proof.
  unfold IngredientUnitModel.tableargs, IngredientFoodModel.tableargs,
    RecipeIngredientModel.tableargs.
  destruct (is_postgresql session); cbn;
    repeat (apply NoDup_cons; [cbn; intuition discriminate|]);
    apply NoDup_nil.
Qed.

(** X8.  PostgreSQL only appends indexes: the plan of each class under an
    engine that is not PostgreSQL is a prefix of its plan under any engine,
    and whatever follows that prefix are indexes with an access method of
    their own. *)
Theorem trigram_family_only_appends_indexes (s s' : Session)
  (Hs : is_postgresql s = false) :
  (exists extra,
     IngredientUnitModel.tableargs s'
     = IngredientUnitModel.tableargs s ++ extra /\
     forallb is_accelerated extra = true) /\
  (exists extra,
     IngredientFoodModel.tableargs s'
     = IngredientFoodModel.tableargs s ++ extra /\
     forallb is_accelerated extra = true) /\
  (exists extra,
     RecipeIngredientModel.tableargs s'
     = RecipeIngredientModel.tableargs s ++ extra /\
     forallb is_accelerated extra = true).
Proof.
  unfold IngredientUnitModel.tableargs, IngredientFoodModel.tableargs,
    RecipeIngredientModel.tableargs.
  rewrite Hs.
  destruct (is_postgresql s'); repeat split;
    eexists; (split; [cbn [app]; reflexivity | reflexivity]).
Qed.

(** X9.  The only uniqueness the plans ask the engine to keep is that of
    (name, group_id) on units and on foods: under every engine no index is
    declared unique, and the plan of an ingredient line asks for no
    uniqueness at all. *)
Theorem uniqueness_is_enforced_on_name_and_group_only (session : Session) :
  filter enforces_uniqueness (IngredientUnitModel.tableargs session)
  = [ UniqueConstraint ["name"; "group_id"]
        "ingredient_units_name_group_id_key" ] /\
  filter enforces_uniqueness (IngredientFoodModel.tableargs session)
  = [ UniqueConstraint ["name"; "group_id"]
        "ingredient_foods_name_group_id_key" ] /\
  filter enforces_uniqueness (RecipeIngredientModel.tableargs session) = [].
Proof.
  unfold IngredientUnitModel.tableargs, IngredientFoodModel.tableargs,
    RecipeIngredientModel.tableargs.
  destruct (is_postgresql session); repeat split.
Qed.

(** ** More on construction *)

Lemma has_key_cons (key k : string) (v : option string) (kwargs : Kwargs) :
  has_key key ((k, v) :: kwargs) = false ->
  String.eqb k key = false /\ has_key key kwargs = false.
Proof. intros H. now apply orb_false_elim in H. Qed.

Section FieldMaps.

Variable normalize : string -> string.

(** *** Unit *)

Lemma unit_setattr_raw events self k v :
  IngredientUnitModel.name
    (IngredientUnitModel.setattr normalize events self (k, v))
  = (if String.eqb k "name" then v else IngredientUnitModel.name self) /\
  IngredientUnitModel.abbreviation
    (IngredientUnitModel.setattr normalize events self (k, v))
  = (if String.eqb k "abbreviation" then v
     else IngredientUnitModel.abbreviation self).
Proof.
  unfold IngredientUnitModel.setattr.
  split_key k; destruct events, v; split; reflexivity.
Qed.

Lemma unit_setattr_observed self k v :
  String.eqb k "name_normalized" = false ->
  String.eqb k "abbreviation_normalized" = false ->
  IngredientUnitModel.synchronized normalize self ->
  IngredientUnitModel.synchronized normalize
    (IngredientUnitModel.setattr normalize true self (k, v)).
Proof.
  intros H1 H2 [S1 S2]. unfold IngredientUnitModel.setattr.
  rewrite H1, H2.
  split_key k; try destruct v; split; solve [assumption | reflexivity].
Qed.

Lemma unit_setattr_unobserved self k v :
  String.eqb k "name_normalized" = false ->
  String.eqb k "abbreviation_normalized" = false ->
  IngredientUnitModel.name_normalized
    (IngredientUnitModel.setattr normalize false self (k, v))
  = IngredientUnitModel.name_normalized self /\
  IngredientUnitModel.abbreviation_normalized
    (IngredientUnitModel.setattr normalize false self (k, v))
  = IngredientUnitModel.abbreviation_normalized self.
Proof.
  intros H1 H2. unfold IngredientUnitModel.setattr. rewrite H1, H2.
  split_key k; split; reflexivity.
Qed.

(** After the population step a raw attribute holds the entry of its name
    (the last one, if the map is given as a list with repeats). *)
Lemma unit_auto_init_raw events (kwargs : Kwargs) :
  forall self,
    IngredientUnitModel.name
      (IngredientUnitModel.auto_init normalize events kwargs self)
    = fold_left
        (fun acc kv => if String.eqb (fst kv) "name" then snd kv else acc)
        kwargs (IngredientUnitModel.name self) /\
    IngredientUnitModel.abbreviation
      (IngredientUnitModel.auto_init normalize events kwargs self)
    = fold_left
        (fun acc kv =>
           if String.eqb (fst kv) "abbreviation" then snd kv else acc)
        kwargs (IngredientUnitModel.abbreviation self).
Proof.
  unfold IngredientUnitModel.auto_init.
  induction kwargs as [|[k v] kwargs IH]; intros self; [split; reflexivity|].
  cbn [fold_left fst snd].
  destruct (unit_setattr_raw events self k v) as [<- <-]. apply IH.
Qed.

Lemma unit_auto_init_observed (kwargs : Kwargs) :
  forall self,
    has_key "name_normalized" kwargs = false ->
    has_key "abbreviation_normalized" kwargs = false ->
    IngredientUnitModel.synchronized normalize self ->
    IngredientUnitModel.synchronized normalize
      (IngredientUnitModel.auto_init normalize true kwargs self).
Proof.
  unfold IngredientUnitModel.auto_init.
  induction kwargs as [|[k v] kwargs IH]; intros self H1 H2 Hs; [exact Hs|].
  apply has_key_cons in H1, H2. destruct H1 as [K1 H1], H2 as [K2 H2].
  cbn [fold_left]. apply IH; try assumption.
  now apply unit_setattr_observed.
Qed.

Lemma unit_auto_init_unobserved (kwargs : Kwargs) :
  forall self,
    has_key "name_normalized" kwargs = false ->
    has_key "abbreviation_normalized" kwargs = false ->
    IngredientUnitModel.name_normalized
      (IngredientUnitModel.auto_init normalize false kwargs self)
    = IngredientUnitModel.name_normalized self /\
    IngredientUnitModel.abbreviation_normalized
      (IngredientUnitModel.auto_init normalize false kwargs self)
    = IngredientUnitModel.abbreviation_normalized self.
Proof.
  unfold IngredientUnitModel.auto_init.
  induction kwargs as [|[k v] kwargs IH]; intros self H1 H2;
    [split; reflexivity|].
  apply has_key_cons in H1, H2. destruct H1 as [K1 H1], H2 as [K2 H2].
  cbn [fold_left].
  destruct (IH (IngredientUnitModel.setattr normalize false self (k, v))
              H1 H2) as [-> ->].
  now apply unit_setattr_unobserved.
Qed.

(** What the population step leaves on a new Unit when the field map does
    not write the shadow columns itself. *)
Lemma unit_populated events (kwargs : Kwargs) :
  has_key "name_normalized" kwargs = false ->
  has_key "abbreviation_normalized" kwargs = false ->
  let p := IngredientUnitModel.auto_init normalize events kwargs
             IngredientUnitModel.blank in
  (IngredientUnitModel.name p = kwarg "name" kwargs /\
   IngredientUnitModel.abbreviation p = kwarg "abbreviation" kwargs) /\
  (IngredientUnitModel.name p = None ->
   IngredientUnitModel.name_normalized p = None) /\
  (IngredientUnitModel.abbreviation p = None ->
   IngredientUnitModel.abbreviation_normalized p = None).
Proof.
  intros H1 H2 p. split; [exact (unit_auto_init_raw events kwargs _)|].
  subst p. destruct events.
  - destruct (unit_auto_init_observed kwargs IngredientUnitModel.blank H1 H2)
      as [S1 S2]; [split; reflexivity|].
    rewrite S1, S2. split; intros ->; reflexivity.
  - destruct (unit_auto_init_unobserved kwargs IngredientUnitModel.blank H1 H2)
      as [-> ->].
    split; reflexivity.
Qed.

(** X10.  A Unit is synchronized when its constructor returns, whether or
    not the listeners observe the population step: for every field map
    that does not write the shadow columns itself, the constructed Unit
    has the name the field map gives, and each of its two shadow fields
    equals [Normalize] of its raw field. *)
Theorem unit_is_synchronized_after_construction
  (events : bool) (session : Session) (kwargs : Kwargs)
  (Hn : has_key "name_normalized" kwargs = false)
  (Ha : has_key "abbreviation_normalized" kwargs = false) :
  let u := IngredientUnitModel.new normalize events session kwargs in
  IngredientUnitModel.name u = kwarg "name" kwargs /\
  IngredientUnitModel.synchronized normalize u.
Proof.
  destruct (unit_populated events kwargs Hn Ha) as ([Pn Pa] & Sn & Sa).
  cbv zeta. unfold IngredientUnitModel.new, IngredientUnitModel.__init__,
    IngredientUnitModel.synchronized.
  rewrite <- Pn, <- Pa.
  set (p := IngredientUnitModel.auto_init normalize events kwargs
              IngredientUnitModel.blank) in *.
  destruct (IngredientUnitModel.name p) as [n|] eqn:En,
           (IngredientUnitModel.abbreviation p) as [a|] eqn:Ea;
    cbn; rewrite ?En, ?Ea, ?Sn, ?Sa by reflexivity; repeat split.
Qed.

(** *** Food *)

Lemma food_setattr_raw events self k v :
  IngredientFoodModel.name
    (IngredientFoodModel.setattr normalize events self (k, v))
  = (if String.eqb k "name" then v else IngredientFoodModel.name self).
Proof.
  unfold IngredientFoodModel.setattr.
  split_key k; destruct events, v; reflexivity.
Qed.

Lemma food_setattr_observed self k v :
  String.eqb k "name_normalized" = false ->
  IngredientFoodModel.synchronized normalize self ->
  IngredientFoodModel.synchronized normalize
    (IngredientFoodModel.setattr normalize true self (k, v)).
Proof.
  intros H1 S1. unfold IngredientFoodModel.setattr. rewrite H1.
  split_key k; try destruct v; solve [assumption | reflexivity].
Qed.

Lemma food_setattr_unobserved self k v :
  String.eqb k "name_normalized" = false ->
  IngredientFoodModel.name_normalized
    (IngredientFoodModel.setattr normalize false self (k, v))
  = IngredientFoodModel.name_normalized self.
Proof.
  intros H1. unfold IngredientFoodModel.setattr. rewrite H1.
  split_key k; reflexivity.
Qed.

Lemma food_auto_init_raw events (kwargs : Kwargs) :
  forall self,
    IngredientFoodModel.name
      (IngredientFoodModel.auto_init normalize events kwargs self)
    = fold_left
        (fun acc kv => if String.eqb (fst kv) "name" then snd kv else acc)
        kwargs (IngredientFoodModel.name self).
Proof.
  unfold IngredientFoodModel.auto_init.
  induction kwargs as [|[k v] kwargs IH]; intros self; [reflexivity|].
  cbn [fold_left fst snd].
  rewrite <- (food_setattr_raw events self k v). apply IH.
Qed.

Lemma food_auto_init_observed (kwargs : Kwargs) :
  forall self,
    has_key "name_normalized" kwargs = false ->
    IngredientFoodModel.synchronized normalize self ->
    IngredientFoodModel.synchronized normalize
      (IngredientFoodModel.auto_init normalize true kwargs self).
Proof.
  unfold IngredientFoodModel.auto_init.
  induction kwargs as [|[k v] kwargs IH]; intros self H1 Hs; [exact Hs|].
  apply has_key_cons in H1. destruct H1 as [K1 H1].
  cbn [fold_left]. apply IH; [assumption|].
  now apply food_setattr_observed.
Qed.

Lemma food_auto_init_unobserved (kwargs : Kwargs) :
  forall self,
    has_key "name_normalized" kwargs = false ->
    IngredientFoodModel.name_normalized
      (IngredientFoodModel.auto_init normalize false kwargs self)
    = IngredientFoodModel.name_normalized self.
Proof.
  unfold IngredientFoodModel.auto_init.
  induction kwargs as [|[k v] kwargs IH]; intros self H1; [reflexivity|].
  apply has_key_cons in H1. destruct H1 as [K1 H1].
  cbn [fold_left]. rewrite (IH _ H1).
  now apply food_setattr_unobserved.
Qed.

Lemma food_populated events (kwargs : Kwargs) :
  has_key "name_normalized" kwargs = false ->
  let p := IngredientFoodModel.auto_init normalize events kwargs
             IngredientFoodModel.blank in
  IngredientFoodModel.name p = kwarg "name" kwargs /\
  (IngredientFoodModel.name p = None ->
   IngredientFoodModel.name_normalized p = None).
Proof.
  intros H1 p. split; [exact (food_auto_init_raw events kwargs _)|].
  subst p. destruct events.
  - rewrite (food_auto_init_observed kwargs IngredientFoodModel.blank H1
               eq_refl).
    intros ->; reflexivity.
  - now rewrite (food_auto_init_unobserved kwargs IngredientFoodModel.blank H1).
Qed.

(** X11.  A Food is synchronized when its constructor returns, whether or
    not the listeners observe the population step: for every field map
    that does not write [name_normalized] itself, the constructed Food has
    the name the field map gives and [name_normalized] equals [Normalize]
    of it (null for a missing or null name). *)
Theorem food_is_synchronized_after_construction
  (events : bool) (session : Session) (kwargs : Kwargs)
  (Hn : has_key "name_normalized" kwargs = false) :
  let f := IngredientFoodModel.new normalize events session kwargs in
  IngredientFoodModel.name f = kwarg "name" kwargs /\
  IngredientFoodModel.synchronized normalize f.
Proof.
  destruct (food_populated events kwargs Hn) as (Pn & Sn).
  cbv zeta. unfold IngredientFoodModel.new, IngredientFoodModel.__init__,
    IngredientFoodModel.synchronized.
  rewrite <- Pn.
  set (p := IngredientFoodModel.auto_init normalize events kwargs
              IngredientFoodModel.blank) in *.
  destruct (IngredientFoodModel.name p) as [n|] eqn:En;
    cbn; rewrite ?En, ?Sn by reflexivity; repeat split.
Qed.

(** *** Ingredient line *)

Lemma recipe_setattr_raw events self k v :
  RecipeIngredientModel.note
    (RecipeIngredientModel.setattr normalize events self (k, v))
  = (if String.eqb k "note" then v else RecipeIngredientModel.note self) /\
  RecipeIngredientModel.original_text
    (RecipeIngredientModel.setattr normalize events self (k, v))
  = (if String.eqb k "original_text" then v
     else RecipeIngredientModel.original_text self).
Proof.
  unfold RecipeIngredientModel.setattr.
  split_key k; destruct events, v; split; reflexivity.
Qed.

Lemma recipe_setattr_observed self k v :
  String.eqb k "note_normalized" = false ->
  String.eqb k "original_text_normalized" = false ->
  RecipeIngredientModel.synchronized normalize self ->
  RecipeIngredientModel.synchronized normalize
    (RecipeIngredientModel.setattr normalize true self (k, v)).
Proof.
  intros H1 H2 [S1 S2]. unfold RecipeIngredientModel.setattr.
  rewrite H1, H2.
  split_key k; try destruct v; split; solve [assumption | reflexivity].
Qed.

Lemma recipe_setattr_unobserved_note self k v :
  String.eqb k "note_normalized" = false ->
  RecipeIngredientModel.note_normalized
    (RecipeIngredientModel.setattr normalize false self (k, v))
  = RecipeIngredientModel.note_normalized self.
Proof.
  intros H1. unfold RecipeIngredientModel.setattr. rewrite H1.
  split_key k; reflexivity.
Qed.

Lemma recipe_auto_init_raw events (kwargs : Kwargs) :
  forall self,
    RecipeIngredientModel.note
      (RecipeIngredientModel.auto_init normalize events kwargs self)
    = fold_left
        (fun acc kv => if String.eqb (fst kv) "note" then snd kv else acc)
        kwargs (RecipeIngredientModel.note self) /\
    RecipeIngredientModel.original_text
      (RecipeIngredientModel.auto_init normalize events kwargs self)
    = fold_left
        (fun acc kv =>
           if String.eqb (fst kv) "original_text" then snd kv else acc)
        kwargs (RecipeIngredientModel.original_text self).
Proof.
  unfold RecipeIngredientModel.auto_init.
  induction kwargs as [|[k v] kwargs IH]; intros self; [split; reflexivity|].
  cbn [fold_left fst snd].
  destruct (recipe_setattr_raw events self k v) as [<- <-]. apply IH.
Qed.

Lemma recipe_auto_init_observed (kwargs : Kwargs) :
  forall self,
    has_key "note_normalized" kwargs = false ->
    has_key "original_text_normalized" kwargs = false ->
    RecipeIngredientModel.synchronized normalize self ->
    RecipeIngredientModel.synchronized normalize
      (RecipeIngredientModel.auto_init normalize true kwargs self).
Proof.
  unfold RecipeIngredientModel.auto_init.
  induction kwargs as [|[k v] kwargs IH]; intros self H1 H2 Hs; [exact Hs|].
  apply has_key_cons in H1, H2. destruct H1 as [K1 H1], H2 as [K2 H2].
  cbn [fold_left]. apply IH; try assumption.
  now apply recipe_setattr_observed.
Qed.

Lemma recipe_auto_init_unobserved_note (kwargs : Kwargs) :
  forall self,
    has_key "note_normalized" kwargs = false ->
    RecipeIngredientModel.note_normalized
      (RecipeIngredientModel.auto_init normalize false kwargs self)
    = RecipeIngredientModel.note_normalized self.
Proof.
  unfold RecipeIngredientModel.auto_init.
  induction kwargs as [|[k v] kwargs IH]; intros self H1; [reflexivity|].
  apply has_key_cons in H1. destruct H1 as [K1 H1].
  cbn [fold_left]. rewrite (IH _ H1).
  now apply recipe_setattr_unobserved_note.
Qed.

(** X12.  An ingredient line after construction, for every field map that
    does not write the shadow columns itself.  Whether or not the listeners
    observe the population step, the line has the note and the original
    text the field map gives and [note_normalized] equals [Normalize] of
    the note.  When the listeners do observe it, [original_text_normalized]
    equals [Normalize] of the original text as well. *)
Theorem line_is_synchronized_when_listeners_observe
  (session : Session) (kwargs : Kwargs)
  (Hn : has_key "note_normalized" kwargs = false)
  (Ho : has_key "original_text_normalized" kwargs = false) :
  (forall events,
     let r := RecipeIngredientModel.new normalize events session kwargs in
     RecipeIngredientModel.note r = kwarg "note" kwargs /\
     RecipeIngredientModel.original_text r = kwarg "original_text" kwargs /\
     RecipeIngredientModel.note_normalized r
     = Normalize normalize (RecipeIngredientModel.note r)) /\
  RecipeIngredientModel.synchronized normalize
    (RecipeIngredientModel.new normalize true session kwargs).
Proof.
  assert (Hobs := recipe_auto_init_observed kwargs RecipeIngredientModel.blank
                    Hn Ho (conj eq_refl eq_refl)).
  assert (Hunobs := recipe_auto_init_unobserved_note kwargs
                      RecipeIngredientModel.blank Hn).
  split.
  - intros events.
    destruct (recipe_auto_init_raw events kwargs RecipeIngredientModel.blank)
      as [Pn Po].
    change (fold_left _ kwargs _) with (kwarg "note" kwargs) in Pn.
    change (fold_left _ kwargs _) with (kwarg "original_text" kwargs) in Po.
    cbv zeta. unfold RecipeIngredientModel.new, RecipeIngredientModel.__init__.
    rewrite <- Pn, <- Po.
    assert (Sn : RecipeIngredientModel.note
                   (RecipeIngredientModel.auto_init normalize events kwargs
                      RecipeIngredientModel.blank) = None ->
                 RecipeIngredientModel.note_normalized
                   (RecipeIngredientModel.auto_init normalize events kwargs
                      RecipeIngredientModel.blank) = None).
    { destruct events.
      - destruct Hobs as [-> _]. intros ->; reflexivity.
      - now rewrite Hunobs. }
    set (p := RecipeIngredientModel.auto_init normalize events kwargs
                RecipeIngredientModel.blank) in *.
    destruct (RecipeIngredientModel.note p) as [n|] eqn:En,
             (kwarg "orginal_text" kwargs);
      cbn; rewrite ?En, ?Sn by reflexivity; repeat split.
  - unfold RecipeIngredientModel.new, RecipeIngredientModel.__init__,
      RecipeIngredientModel.synchronized.
    destruct (recipe_auto_init_raw true kwargs RecipeIngredientModel.blank)
      as [Pn _].
    change (fold_left _ kwargs _) with (kwarg "note" kwargs) in Pn.
    rewrite <- Pn. destruct Hobs as [S1 S2].
    set (p := RecipeIngredientModel.auto_init normalize true kwargs
                RecipeIngredientModel.blank) in *.
    destruct (RecipeIngredientModel.note p) as [n|] eqn:En,
             (kwarg "orginal_text" kwargs);
      cbn; rewrite ?En; split; solve [reflexivity | assumption
        | rewrite S1, En; reflexivity].
Qed.

(** X13.  Index families where the plans have them.  Under every engine the
    plan stored by a constructor holds exactly one plain index on each
    shadow field; on both shadow fields of a Unit, on the one of a Food and
    on [note_normalized] of an ingredient line it holds exactly one trigram
    index under PostgreSQL and none under any other engine. *)
Theorem constructed_plans_index_each_shadow_field
  (events : bool) (session : Session) (kwargs : Kwargs) :
  let trigram := if is_postgresql session then 1 else 0 in
  let unit_plan := IngredientUnitModel.__table_args__
                     (IngredientUnitModel.new normalize events session kwargs) in
  let food_plan := IngredientFoodModel.__table_args__
                     (IngredientFoodModel.new normalize events session kwargs) in
  let line_plan := RecipeIngredientModel.__table_args__
                     (RecipeIngredientModel.new normalize events session kwargs) in
  (length (plain_indexes_on "name_normalized" unit_plan) = 1 /\
   length (trigram_indexes_on "name_normalized" unit_plan) = trigram) /\
  (length (plain_indexes_on "abbreviation_normalized" unit_plan) = 1 /\
   length (trigram_indexes_on "abbreviation_normalized" unit_plan) = trigram) /\
  (length (plain_indexes_on "name_normalized" food_plan) = 1 /\
   length (trigram_indexes_on "name_normalized" food_plan) = trigram) /\
  (length (plain_indexes_on "note_normalized" line_plan) = 1 /\
   length (trigram_indexes_on "note_normalized" line_plan) = trigram) /\
  length (plain_indexes_on "original_text_normalized" line_plan) = 1.
Proof.
  cbv zeta.
  rewrite unit_new_table_args, food_new_table_args, recipe_new_table_args.
  exact (index_families_of_the_plans session).
Qed.

End FieldMaps.

(** ** Instances of the further conditional theorems *)

Lemma synchronization_is_kept_by_assignments_witness :
  let u := IngredientUnitModel.mk (Some "group-1") (Some "Cup") None
             (Some "C.") (Some "cup") (Some "c.") [] in
  let f := IngredientFoodModel.mk (Some "group-1") (Some "Garlic") None None
             (Some "garlic") [] in
  let r := RecipeIngredientModel.mk None (Some "Minced") None
             (Some "minced") None None [] in
  let lu := [IngredientUnitModel.AssignAbbreviation None;
             IngredientUnitModel.AssignName (Some "Table  Spoon")] in
  let lf := [IngredientFoodModel.AssignName (Some "Red Onion")] in
  let lr := [RecipeIngredientModel.AssignOriginalText (Some "2 Cloves");
             RecipeIngredientModel.AssignNote None] in
  (IngredientUnitModel.synchronized TextNormalizer.normalize u /\
   IngredientFoodModel.synchronized TextNormalizer.normalize f /\
   RecipeIngredientModel.synchronized TextNormalizer.normalize r) /\
  IngredientUnitModel.synchronized TextNormalizer.normalize
    (IngredientUnitModel.run TextNormalizer.normalize lu u) /\
  IngredientFoodModel.synchronized TextNormalizer.normalize
    (IngredientFoodModel.run TextNormalizer.normalize lf f) /\
  RecipeIngredientModel.synchronized TextNormalizer.normalize
    (RecipeIngredientModel.run TextNormalizer.normalize lr r).
Proof.
  cbv zeta.
  assert (Hu : IngredientUnitModel.synchronized TextNormalizer.normalize
                 (IngredientUnitModel.mk (Some "group-1") (Some "Cup") None
                    (Some "C.") (Some "cup") (Some "c.") []))
    by (split; reflexivity).
  assert (Hf : IngredientFoodModel.synchronized TextNormalizer.normalize
                 (IngredientFoodModel.mk (Some "group-1") (Some "Garlic") None
                    None (Some "garlic") []))
    by reflexivity.
  assert (Hr : RecipeIngredientModel.synchronized TextNormalizer.normalize
                 (RecipeIngredientModel.mk None (Some "Minced") None
                    (Some "minced") None None []))
    by (split; reflexivity).
  split; [exact (conj Hu (conj Hf Hr))|].
  exact (synchronization_is_kept_by_assignments TextNormalizer.normalize
           _ _ _ _ _ _ Hu Hf Hr).
Defined.

Lemma reassigning_the_current_value_changes_nothing_witness :
  let u := IngredientUnitModel.mk (Some "group-1") (Some "Cup") None
             (Some "C.") (Some "cup") (Some "c.") [] in
  let f := IngredientFoodModel.mk (Some "group-1") (Some "Garlic") None None
             (Some "garlic") [] in
  let r := RecipeIngredientModel.mk None (Some "Minced") None
             (Some "minced") None None [] in
  (IngredientUnitModel.synchronized TextNormalizer.normalize u /\
   IngredientFoodModel.synchronized TextNormalizer.normalize f /\
   RecipeIngredientModel.synchronized TextNormalizer.normalize r) /\
  IngredientUnitModel.set_name TextNormalizer.normalize (Some "Cup") u = u /\
  IngredientUnitModel.set_abbreviation TextNormalizer.normalize (Some "C.") u
  = u /\
  IngredientFoodModel.set_name TextNormalizer.normalize (Some "Garlic") f
  = f /\
  RecipeIngredientModel.set_note TextNormalizer.normalize (Some "Minced") r
  = r /\
  RecipeIngredientModel.set_original_text TextNormalizer.normalize None r = r.
Proof.
  cbv zeta.
  assert (Hu : IngredientUnitModel.synchronized TextNormalizer.normalize
                 (IngredientUnitModel.mk (Some "group-1") (Some "Cup") None
                    (Some "C.") (Some "cup") (Some "c.") []))
    by (split; reflexivity).
  assert (Hf : IngredientFoodModel.synchronized TextNormalizer.normalize
                 (IngredientFoodModel.mk (Some "group-1") (Some "Garlic") None
                    None (Some "garlic") []))
    by reflexivity.
  assert (Hr : RecipeIngredientModel.synchronized TextNormalizer.normalize
                 (RecipeIngredientModel.mk None (Some "Minced") None
                    (Some "minced") None None []))
    by (split; reflexivity).
  split; [exact (conj Hu (conj Hf Hr))|].
  exact (reassigning_the_current_value_changes_nothing
           TextNormalizer.normalize _ _ _ Hu Hf Hr).
Defined.

Lemma trigram_family_only_appends_indexes_witness :
  let sqlite := {| get_bind := {| engine_name := "sqlite" |} |} in
  let postgresql := {| get_bind := {| engine_name := "postgresql" |} |} in
  is_postgresql sqlite = false /\
  exists extra,
    RecipeIngredientModel.tableargs postgresql
    = RecipeIngredientModel.tableargs sqlite ++ extra /\
    forallb is_accelerated extra = true.
Proof.
  cbv zeta. split; [reflexivity|].
  apply (trigram_family_only_appends_indexes
           {| get_bind := {| engine_name := "sqlite" |} |}
           {| get_bind := {| engine_name := "postgresql" |} |} eq_refl).
Defined.

Lemma unit_is_synchronized_after_construction_witness :
  let session := {| get_bind := {| engine_name := "sqlite" |} |} in
  let kwargs := [("group_id", Some "group-1"); ("name", Some "Table  Spoon");
                 ("abbreviation", Some "Tbsp")] in
  let u := IngredientUnitModel.new TextNormalizer.normalize false session
             kwargs in
  (has_key "name_normalized" kwargs = false /\
   has_key "abbreviation_normalized" kwargs = false) /\
  IngredientUnitModel.name u = Some "Table  Spoon" /\
  IngredientUnitModel.synchronized TextNormalizer.normalize u.
Proof.
  cbv zeta. split; [split; reflexivity|].
  exact (unit_is_synchronized_after_construction TextNormalizer.normalize
           false {| get_bind := {| engine_name := "sqlite" |} |}
           [("group_id", Some "group-1"); ("name", Some "Table  Spoon");
            ("abbreviation", Some "Tbsp")] eq_refl eq_refl).
Defined.

Lemma food_is_synchronized_after_construction_witness :
  let session := {| get_bind := {| engine_name := "postgresql" |} |} in
  let kwargs := [("name", Some "Red  Onion"); ("label_id", None)] in
  let f := IngredientFoodModel.new TextNormalizer.normalize false session
             kwargs in
  has_key "name_normalized" kwargs = false /\
  IngredientFoodModel.name f = Some "Red  Onion" /\
  IngredientFoodModel.synchronized TextNormalizer.normalize f.
Proof.
  cbv zeta. split; [reflexivity|].
  exact (food_is_synchronized_after_construction TextNormalizer.normalize
           false {| get_bind := {| engine_name := "postgresql" |} |}
           [("name", Some "Red  Onion"); ("label_id", None)] eq_refl).
Defined.

Lemma line_is_synchronized_when_listeners_observe_witness :
  let session := {| get_bind := {| engine_name := "sqlite" |} |} in
  let kwargs := [("note", Some "Finely  Chopped");
                 ("original_text", Some "2 Cloves, minced")] in
  (has_key "note_normalized" kwargs = false /\
   has_key "original_text_normalized" kwargs = false) /\
  RecipeIngredientModel.synchronized TextNormalizer.normalize
    (RecipeIngredientModel.new TextNormalizer.normalize true session kwargs).
Proof.
  cbv zeta. split; [split; reflexivity|].
  apply (line_is_synchronized_when_listeners_observe TextNormalizer.normalize
           {| get_bind := {| engine_name := "sqlite" |} |}
           [("note", Some "Finely  Chopped");
            ("original_text", Some "2 Cloves, minced")] eq_refl eq_refl).
Defined.
